(** * Verification of [scripts/benchmark_summary.py]

    A shallow embedding of the benchmark report generator: the Criterion
    result collector, the time and name formatters, the table, comparison
    and summary builders, the printing wrappers and [main] with its archive
    step.

    Modelling conventions.
    - A Python [str] is a Rocq [string] holding its UTF-8 encoding; [len]
      counts code points, the case and digit predicates act on the ASCII
      range (benchmark identifiers and parameter labels are ASCII) and
      [title] knows one letter beyond it, U+01F0.
    - A Python [dict] is an association list in insertion order.
    - Python numbers ([int] and [float]) are exact rationals [Q]; a division
      by zero raises as it does in Python.  Rounding, underflow and overflow
      of floats are not in this arithmetic: the summary builder is therefore
      also given over an arbitrary [arithmetic], whose operations may raise
      and round as they please, and [exact] is the instance that gives back
      the builder over [Q].
    - The collector stores whatever JSON value a record holds; the builders
      take result sets of numbers, as their signatures say ([ns: float]).
    - An exception is a value of [exn]; code that can raise returns
      [result]. *)

From Stdlib Require Import List String Ascii Bool Arith ZArith QArith Qabs Lia.
From Stdlib Require Import Permutation.
From Stdlib Require Import Numbers.DecimalString.
Import ListNotations.

Set Warnings "-register-all".

Open Scope list_scope.
Open Scope string_scope.

(** ** Exceptions *)

Inductive exn : Type :=
| TypeError
| ValueError
| KeyError
| JSONDecodeError
| UnicodeDecodeError
| IsADirectoryError
| ZeroDivisionError
| OverflowError
| RecursionError.

Inductive result (A : Type) : Type :=
| Ok (a : A)
| Raise (e : exn).

Arguments Ok {A} a.
Arguments Raise {A} e.

Definition bind {A B : Type} (c : result A) (k : A -> result B) : result B :=
  match c with
  | Ok a => k a
  | Raise e => Raise e
  end.

Notation "x <- c ;; k" := (bind c (fun x => k))
  (at level 61, c at next level, right associativity).

(** A [for] loop whose body may raise: the state is threaded through the
    elements in order and the first exception ends the loop. *)
Fixpoint for_each {S A : Type} (body : S -> A -> result S) (l : list A) (s : S)
  : result S :=
  match l with
  | [] => Ok s
  | a :: l' => s' <- body s a ;; for_each body l' s'
  end.

(** ** Dictionaries *)

Definition dict (V : Type) : Type := list (string * V).

Fixpoint dict_get {V : Type} (k : string) (d : dict V) : option V :=
  match d with
  | [] => None
  | (k', v) :: d' => if String.eqb k k' then Some v else dict_get k d'
  end.

Definition dict_mem {V : Type} (k : string) (d : dict V) : bool :=
  match dict_get k d with
  | Some _ => true
  | None => false
  end.

(** [d[k] = v]: an existing key keeps its position, a new key goes last. *)
Fixpoint dict_set {V : Type} (k : string) (v : V) (d : dict V) : dict V :=
  match d with
  | [] => [(k, v)]
  | (k', v') :: d' =>
      if String.eqb k k' then (k', v) :: d' else (k', v') :: dict_set k v d'
  end.

Definition keys {V : Type} (d : dict V) : list string := map fst d.
Definition values {V : Type} (d : dict V) : list V := map snd d.

(** [d.get(k, {})] *)
Definition get_or_empty {V : Type} (k : string) (d : dict (dict V)) : dict V :=
  match dict_get k d with
  | Some v => v
  | None => []
  end.

(** Truth value of a container: empty is false. *)
Definition truthy {A : Type} (l : list A) : bool :=
  match l with
  | [] => false
  | _ :: _ => true
  end.

(** A result set maps a benchmark name to its parameter labels and their
    values. *)
Definition ResultSet (V : Type) : Type := dict (dict V).

(** ** JSON values and the measurement tree *)

Inductive json : Type :=
| JNull
| JBool (b : bool)
| JNum (q : Q)
| JStr (s : string)
| JArr (items : list json)
| JObj (members : dict json).

(** [v[k]] for a string key [k]: only a [dict] can be subscripted by a
    string; a list, a string, a number, a boolean or [None] raises
    [TypeError]. *)
Definition subscript (v : json) (k : string) : result json :=
  match v with
  | JObj members =>
      match dict_get k members with
      | Some x => Ok x
      | None => Raise KeyError
      end
  | _ => Raise TypeError
  end.

(** What [json.load] makes of a file's bytes. *)
Inductive content : Type :=
| Undecodable            (* not text in the default encoding *)
| Malformed              (* text that is not JSON *)
| Oversized              (* JSON with an integer literal past the digit limit *)
| TooDeep                (* JSON nested deeper than the interpreter's stack *)
| Document (j : json).

Inductive node : Type :=
| File (c : content)
| Dir (entries : list (string * node)).

Definition listing : Type := list (string * node).

Definition is_dir (n : node) : bool :=
  match n with
  | Dir _ => true
  | File _ => false
  end.

Fixpoint child (name : string) (entries : listing) : option node :=
  match entries with
  | [] => None
  | (n, x) :: rest => if String.eqb name n then Some x else child name rest
  end.

(** [param_dir / "new" / "estimates.json"], when it exists. *)
Definition estimates_file (param_dir : listing) : option node :=
  match child "new" param_dir with
  | Some (Dir new_dir) => child "estimates.json" new_dir
  | _ => None
  end.

Definition open_file (n : node) : result content :=
  match n with
  | File c => Ok c
  | Dir _ => Raise IsADirectoryError
  end.

Definition json_load (c : content) : result json :=
  match c with
  | Undecodable => Raise UnicodeDecodeError
  | Malformed => Raise JSONDecodeError
  | Oversized => Raise ValueError
  | TooDeep => Raise RecursionError
  | Document j => Ok j
  end.

(** ** Result collector *)

(** The body of the [try] block. *)
Definition record_estimate (results : ResultSet json)
    (bench_name param_name : string) (estimates : node)
  : result (ResultSet json) :=
  f <- open_file estimates ;;
  data <- json_load f ;;
  mean <- subscript data "mean" ;;
  mean_ns <- subscript mean "point_estimate" ;;
  let results1 :=
    if dict_mem bench_name results then results
    else dict_set bench_name [] results in
  match dict_get bench_name results1 with
  | Some params => Ok (dict_set bench_name (dict_set param_name mean_ns params) results1)
  | None => Raise KeyError
  end.

(** One iteration of the inner loop, with the [except] clause. *)
Definition visit_param (bench_name : string) (results : ResultSet json)
    (entry : string * node) : result (ResultSet json) :=
  match snd entry with
  | File _ => Ok results
  | Dir param_dir =>
      match estimates_file param_dir with
      | None => Ok results
      | Some estimates =>
          match record_estimate results bench_name (fst entry) estimates with
          | Ok results' => Ok results'
          | Raise JSONDecodeError => Ok results
          | Raise KeyError => Ok results
          | Raise e => Raise e
          end
      end
  end.

(** One iteration of the outer loop. *)
Definition visit_bench (results : ResultSet json) (entry : string * node)
  : result (ResultSet json) :=
  match snd entry with
  | File _ => Ok results
  | Dir bench_dir => for_each (visit_param (fst entry)) bench_dir results
  end.

Definition parse_criterion_results (criterion_dir : listing)
  : result (ResultSet json) :=
  for_each visit_bench criterion_dir [].

(** ** Strings *)

Definition code (c : ascii) : N := N_of_ascii c.

Definition in_range (lo hi : N) (c : ascii) : bool :=
  (lo <=? code c)%N && (code c <=? hi)%N.

Definition is_lower (c : ascii) : bool := in_range 97 122 c.
Definition is_upper (c : ascii) : bool := in_range 65 90 c.
Definition is_digit (c : ascii) : bool := in_range 48 57 c.

(** Whitespace as [str.strip] sees it in the ASCII range. *)
Definition is_space (c : ascii) : bool :=
  in_range 9 13 c || in_range 28 32 c.

Definition to_upper (c : ascii) : ascii :=
  if is_lower c then ascii_of_N (code c - 32) else c.

Definition to_lower (c : ascii) : ascii :=
  if is_upper c then ascii_of_N (code c + 32) else c.

(** A byte [10xxxxxx] continues a code point. *)
Definition is_continuation (c : ascii) : bool :=
  match c with
  | Ascii _ _ _ _ _ _ b6 b7 => b7 && negb b6
  end.

(** [len(s)]: the number of code points. *)
Fixpoint len (s : string) : nat :=
  match s with
  | EmptyString => 0
  | String c s' => if is_continuation c then len s' else S (len s')
  end.

Fixpoint repeat_string (s : string) (n : nat) : string :=
  match n with
  | O => ""
  | S n' => s ++ repeat_string s n'
  end.

Definition ljust (w : nat) (s : string) : string :=
  s ++ repeat_string " " (w - len s).

Definition rjust (w : nat) (s : string) : string :=
  repeat_string " " (w - len s) ++ s.

Fixpoint join (sep : string) (l : list string) : string :=
  match l with
  | [] => ""
  | [x] => x
  | x :: l' => x ++ sep ++ join sep l'
  end.

Fixpoint map_chars (f : ascii -> ascii) (s : string) : string :=
  match s with
  | EmptyString => ""
  | String c s' => String (f c) (map_chars f s')
  end.

(** [s.replace(a, b)] for single characters. *)
Definition replace_char (a b : ascii) (s : string) : string :=
  map_chars (fun c => if Ascii.eqb c a then b else c) s.

Definition startswith (s p : string) : bool := String.prefix p s.

Fixpoint drop (n : nat) (s : string) : string :=
  match n, s with
  | O, _ => s
  | S _, EmptyString => ""
  | S n', String _ s' => drop n' s'
  end.

(** [s.replace(old, new, 1)]: the leftmost occurrence only. *)
Fixpoint replace_first (old new s : string) : string :=
  if String.prefix old s then new ++ drop (String.length old) s
  else match s with
       | EmptyString => ""
       | String c s' => String c (replace_first old new s')
       end.

(** [s.title()]: a letter that follows a letter is lowered, any other letter
    is raised.  The table of letters is that of the ASCII range, extended
    with U+01F0 (small j with caron, the bytes 199 176), a small letter with
    no capital of its own: its title-case form is the two code points
    "J" U+030C (the bytes 74 204 140) and it is its own lower-case form.
    Every other code point outside ASCII is copied as an uncased one. *)
Fixpoint title_from (previous_is_cased : bool) (s : string) : string :=
  match s with
  | EmptyString => ""
  | String c s' =>
      if is_lower c then
        String (if previous_is_cased then c else to_upper c) (title_from true s')
      else if is_upper c then
        String (if previous_is_cased then to_lower c else c) (title_from true s')
      else
        match s' with
        | String d s'' =>
            if Ascii.eqb c "199" && Ascii.eqb d "176" then
              if previous_is_cased
              then String c (String d (title_from true s''))
              else String "J" (String "204" (String "140" (title_from true s'')))
            else String c (title_from false s')
        | EmptyString => String c (title_from false s')
        end
  end.

Definition title (s : string) : string := title_from false s.

Fixpoint all_chars (p : ascii -> bool) (s : string) : bool :=
  match s with
  | EmptyString => true
  | String c s' => p c && all_chars p s'
  end.

Definition isdigit (s : string) : bool :=
  match s with
  | EmptyString => false
  | _ => all_chars is_digit s
  end.

Fixpoint lstrip (s : string) : string :=
  match s with
  | EmptyString => ""
  | String c s' => if is_space c then lstrip s' else s
  end.

Fixpoint rstrip (s : string) : string :=
  match s with
  | EmptyString => ""
  | String c s' =>
      match rstrip s' with
      | EmptyString => if is_space c then "" else String c ""
      | r => String c r
      end
  end.

Definition strip (s : string) : string := lstrip (rstrip s).

Definition digit_value (c : ascii) : Z := Z.of_N (code c - 48).

(** Value of a run of decimal digits, most significant first. *)
Fixpoint decimal_from (acc : Z) (s : string) : Z :=
  match s with
  | EmptyString => acc
  | String c s' => decimal_from (10 * acc + digit_value c) s'
  end.

Definition decimal_value (s : string) : Z := decimal_from 0 s.

(** Digits of an [int] literal: single underscores may separate digits. *)
Fixpoint grouped_digits (acc : Z) (after_digit : bool) (s : string) : option Z :=
  match s with
  | EmptyString => if after_digit then Some acc else None
  | String c s' =>
      if is_digit c then grouped_digits (10 * acc + digit_value c) true s'
      else if Ascii.eqb c "_" && after_digit then grouped_digits acc false s'
      else None
  end.

(** [int(s)] for a string: surrounding whitespace, an optional sign, then
    digits. *)
Definition py_int (s : string) : result Z :=
  let body (digits : string) :=
    match grouped_digits 0 false digits with
    | Some n => Ok n
    | None => Raise ValueError
    end in
  match strip s with
  | String "+" rest => body rest
  | String "-" rest => n <- body rest ;; Ok (- n)%Z
  | t => body t
  end.

(** [s.split(sep)[-1]] for a one-character separator: what follows the last
    separator. *)
Fixpoint last_field (sep : ascii) (s : string) : string :=
  match s with
  | EmptyString => ""
  | String c s' =>
      if existsb (Ascii.eqb sep) (list_ascii_of_string s') then last_field sep s'
      else if Ascii.eqb c sep then s' else s
  end.

(** [s.endswith(p)]: [p] is [s] or ends the rest of [s]. *)
Fixpoint endswith (s p : string) : bool :=
  String.eqb s p
  || match s with
     | EmptyString => false
     | String _ s' => endswith s' p
     end.

(** ** Sorting and sets *)

(** [sorted] is stable: equal elements keep their order. *)
Fixpoint insert_by {A : Type} (le : A -> A -> bool) (x : A) (l : list A) : list A :=
  match l with
  | [] => [x]
  | y :: l' => if le x y then x :: l else y :: insert_by le x l'
  end.

Definition sorted_by {A : Type} (le : A -> A -> bool) (l : list A) : list A :=
  fold_right (insert_by le) [] l.

Definition sorted_strings (l : list string) : list string :=
  sorted_by String.leb l.

(** The sort key of a parameter label of the ASCII range.  ([isdigit] also
    holds of digits outside it, on some of which [int] raises.) *)
Definition param_key (x : string) : Z :=
  if isdigit x then decimal_value x else 0.

Definition sorted_params (l : list string) : list string :=
  sorted_by (fun a b => (param_key a <=? param_key b)%Z) l.

(** [set(l)], listed in order of first occurrence.  (Python lists a set in
    hash order, which the stable sort keeps among labels of equal key.) *)
Fixpoint unique (l : list string) : list string :=
  match l with
  | [] => []
  | x :: l' => x :: filter (fun y => negb (String.eqb x y)) (unique l')
  end.

(** ** Numbers *)

Definition nl : string := String "010"%char "".

(** [str(n)] for an integer. *)
Definition decimal_string (n : Z) : string :=
  NilZero.string_of_int (Z.to_int n).

Definition zfill (w : nat) (s : string) : string :=
  repeat_string "0" (w - String.length s) ++ s.

(** [f"{n:03d}"] *)
Definition format_03d (n : Z) : string :=
  if (n <? 0)%Z then "-" ++ zfill 2 (decimal_string (- n))
  else zfill 3 (decimal_string n).

Definition Qlt_bool (a b : Q) : bool := negb (Qle_bool b a).

(** Nearest integer, a tie going to the even neighbour. *)
Definition round_half_even (x : Q) : Z :=
  let n := Qnum x in
  let d := Z.pos (Qden x) in
  let f := (n / d)%Z in
  match (2 * (n mod d) ?= d)%Z with
  | Lt => f
  | Gt => (f + 1)%Z
  | Eq => if Z.even f then f else (f + 1)%Z
  end.

(** [f"{x:.<digits>f}"] of the exact value [x]: a tie goes to the even
    neighbour.  (A float is formatted from its binary value, so a decimal
    tie such as 1.05, which is no binary fraction, is no tie there.) *)
Definition format_fixed (digits : nat) (x : Q) : string :=
  let scale := (10 ^ Z.of_nat digits)%Z in
  let m := round_half_even (Qabs x * inject_Z scale) in
  (if Qlt_bool x 0 then "-" else "")
  ++ decimal_string (m / scale)
  ++ match digits with
     | O => ""
     | _ => "." ++ zfill digits (decimal_string (m mod scale))
     end.

(** [a / b], exactly: no rounding, underflow or overflow. *)
Definition py_div (a b : Q) : result Q :=
  if Qeq_bool b 0 then Raise ZeroDivisionError else Ok (a / b)%Q.

Definition Qsum (l : list Q) : Q := fold_left Qplus l 0%Q.

Definition getitem {V : Type} (k : string) (d : dict V) : result V :=
  match dict_get k d with
  | Some v => Ok v
  | None => Raise KeyError
  end.

(** ** Time and name formatters *)

Definition format_time (ns : Q) : string :=
  if Qlt_bool ns 1000 then format_fixed 0 ns ++ " ns"
  else if Qlt_bool ns 1000000 then format_fixed 2 (ns / 1000) ++ " µs"
  else if Qlt_bool ns 1000000000 then format_fixed 2 (ns / 1000000) ++ " ms"
  else format_fixed 2 (ns / 1000000000) ++ " s".

Definition replacements : list (string * string) :=
  [ ("helix index", "Helix Index");
    ("git status", "Git Status");
    ("query staged", "Query Staged");
    ("index read", "Index Read") ].

(** The substitution loop: the first entry whose key starts [display] is
    applied, then the loop breaks. *)
Fixpoint apply_replacements (table : list (string * string)) (display : string)
  : string :=
  match table with
  | [] => display
  | (old, new) :: rest =>
      if startswith display old then replace_first old new display
      else apply_replacements rest display
  end.

Definition format_benchmark_name (name : string) : string :=
  let display := replace_char "_" " " name in
  title (apply_replacements replacements display).

(** ** Table builder *)

(** [col_widths[i] = max(col_widths[i], len(cell))] over one row; every row
    has as many cells as there are headers. *)
Fixpoint widen (col_widths : list nat) (row : list string) : list nat :=
  match col_widths, row with
  | w :: ws, cell :: cells => Nat.max w (len cell) :: widen ws cells
  | _, _ => col_widths
  end.

Definition column_widths (headers : list string) (rows : list (list string))
  : list nat :=
  fold_left widen rows (map len headers).

Definition separator_line (col_widths : list nat) : string :=
  "|" ++ join "|" (map (fun w => repeat_string "-" (w + 2)) col_widths) ++ "|".

Definition left_line (cells : list string) (col_widths : list nat) : string :=
  "| " ++ join " | " (map (fun cw => ljust (snd cw) (fst cw)) (combine cells col_widths))
  ++ " |".

(** A data row: the first cell is left-justified, the others right. *)
Definition value_line (row : list string) (col_widths : list nat) : string :=
  "| "
  ++ join " | "
       (match combine row col_widths with
        | [] => []
        | (cell, w) :: rest =>
            ljust w cell :: map (fun cw => rjust (snd cw) (fst cw)) rest
        end)
  ++ " |".

Definition all_parameters (results : ResultSet Q) : list string :=
  sorted_params (unique (flat_map (fun bench => keys (snd bench)) results)).

Definition table_row (all_params : list string) (results : ResultSet Q)
    (bench_name : string) : list string :=
  let bench_results := get_or_empty bench_name results in
  format_benchmark_name bench_name
  :: map (fun param =>
            match dict_get param bench_results with
            | Some ns => format_time ns
            | None => "N/A"
            end) all_params.

Definition build_aligned_table (results : ResultSet Q) : string :=
  let all_params := all_parameters results in
  let rows := map (table_row all_params results) (sorted_strings (keys results)) in
  let headers := "Benchmark" :: map (fun p => p ++ " files") all_params in
  let col_widths := column_widths headers rows in
  let header_line := left_line headers col_widths in
  let separator := separator_line col_widths in
  join nl (header_line :: separator :: map (fun row => value_line row col_widths) rows).

(** ** Comparison builder *)

Definition calculate_speedup (git_time helix_time : Q) : result string :=
  if Qeq_bool helix_time 0 then Ok "∞"
  else
    speedup <- py_div git_time helix_time ;;
    if Qlt_bool 1 speedup then Ok (format_fixed 1 speedup ++ "x faster")
    else if Qlt_bool speedup 1 then
      inverse <- py_div 1 speedup ;;
      Ok (format_fixed 1 inverse ++ "x slower")
    else Ok "same".

(** The rows one parameter contributes. *)
Definition comparison_group (git_baseline helix_first helix_cached : dict Q)
    (comparison_rows : list (list string)) (param : string)
  : result (list (list string)) :=
  if negb (dict_mem param git_baseline) then Ok comparison_rows
  else
    git_time <- getitem param git_baseline ;;
    let rows1 :=
      app comparison_rows
        [["Git status (" ++ param ++ " files)"; format_time git_time; "-"; "-"]] in
    rows2 <-
      (if dict_mem param helix_first then
         helix_time <- getitem param helix_first ;;
         speedup <- calculate_speedup git_time helix_time ;;
         Ok (app rows1 [["  Helix (first run)"; format_time helix_time; speedup; ""]])
       else Ok rows1) ;;
    rows3 <-
      (if dict_mem param helix_cached then
         helix_time <- getitem param helix_cached ;;
         speedup <- calculate_speedup git_time helix_time ;;
         Ok (app rows2 [["  Helix (cached)"; format_time helix_time; speedup; "⚡"]])
       else Ok rows2) ;;
    Ok (app rows3 [[""; ""; ""; ""]]).

Definition is_blank_row (row : list string) : bool :=
  forallb (fun cell => String.eqb cell "") row.

Definition build_comparison_table (results : ResultSet Q) : result string :=
  let git_baseline := get_or_empty "git_status_baseline" results in
  let helix_cached := get_or_empty "helix_index_cached_run" results in
  let helix_first := get_or_empty "helix_index_first_run" results in
  if negb (truthy git_baseline) || negb (truthy helix_cached) then Ok ""
  else
    let all_params := sorted_params (keys git_baseline) in
    comparison_rows <-
      for_each (comparison_group git_baseline helix_first helix_cached)
        all_params [] ;;
    let headers := ["Operation"; "Time"; "vs Git"; ""] in
    let col_widths := column_widths headers comparison_rows in
    let header_line := left_line headers col_widths in
    let separator := separator_line col_widths in
    Ok (join nl
          (("## Performance Comparison" ++ nl) :: header_line :: separator
           :: map (fun row => left_line row col_widths)
                (filter (fun row => negb (is_blank_row row)) comparison_rows))).

(** ** Summary builder *)

(** One iteration of the speedup loop. *)
Definition add_speedup (git_baseline helix_cached : dict Q) (speedups : list Q)
    (param : string) : result (list Q) :=
  if dict_mem param helix_cached then
    git_time <- getitem param git_baseline ;;
    helix_time <- getitem param helix_cached ;;
    if Qlt_bool 0 helix_time then
      ratio <- py_div git_time helix_time ;;
      Ok (app speedups [ratio])
    else Ok speedups
  else Ok speedups.

Definition collect_speedups (git_baseline helix_cached : dict Q) : result (list Q) :=
  for_each (add_speedup git_baseline helix_cached) (keys git_baseline) [].

Definition average (l : list Q) : result Q :=
  py_div (Qsum l) (inject_Z (Z.of_nat (List.length l))).

Definition build_summary_stats (results : ResultSet Q) : result string :=
  let git_baseline := get_or_empty "git_status_baseline" results in
  let helix_cached := get_or_empty "helix_index_cached_run" results in
  let query_staged := get_or_empty "query_staged" results in
  if negb (truthy git_baseline) || negb (truthy helix_cached) then Ok ""
  else
    let lines0 := ["## Summary Statistics" ++ nl] in
    speedups <- collect_speedups git_baseline helix_cached ;;
    lines1 <-
      (if truthy speedups then
         avg_speedup <- average speedups ;;
         Ok (app lines0 ["**Average speedup (cached):** "
                         ++ format_fixed 1 avg_speedup ++ "x faster than git"])
       else Ok lines0) ;;
    lines2 <-
      (if truthy query_staged then
         avg_query <- average (values query_staged) ;;
         Ok (app lines1 ["**Average query time:** " ++ format_time avg_query])
       else Ok lines1) ;;
    let helix_open := get_or_empty "helix_index_open" results in
    lines3 <-
      (if truthy helix_open then
         avg_load <- average (values helix_open) ;;
         Ok (app lines2 ["**Average index load time:** " ++ format_time avg_load])
       else Ok lines2) ;;
    Ok (join nl lines3).

(** ** The summary builder over any arithmetic *)

(** The operations the summary applies to its numbers.  Python's numbers
    are integers of any size and binary floats: a quotient and a sum of
    floats are rounded, a quotient can underflow to zero or overflow, and an
    integer too large for a float makes a division or a sum raise
    [OverflowError].  Comparisons of numbers never raise.  The builder is
    written once more over these operations, so that what is proved of it
    holds of whatever the arithmetic does. *)
Record arithmetic : Type := {
  num : Type;
  of_int : Z -> num;
  less : num -> num -> bool;
  truediv : num -> num -> result num;
  total : list num -> result num;
  fixed : nat -> num -> result string
}.

(** The arithmetic of the exact rationals, which the builders above use. *)
Definition exact : arithmetic :=
  {| num := Q;
     of_int := inject_Z;
     less := Qlt_bool;
     truediv := py_div;
     total := fun l => Ok (Qsum l);
     fixed := fun digits x => Ok (format_fixed digits x) |}.

Module AnyArithmetic.
Section Over.
Variable A : arithmetic.

Definition format_time (ns : num A) : result string :=
  if less A ns (of_int A 1000) then
    text <- fixed A 0 ns ;;
    Ok (text ++ " ns")
  else if less A ns (of_int A 1000000) then
    us <- truediv A ns (of_int A 1000) ;;
    text <- fixed A 2 us ;;
    Ok (text ++ " µs")
  else if less A ns (of_int A 1000000000) then
    ms <- truediv A ns (of_int A 1000000) ;;
    text <- fixed A 2 ms ;;
    Ok (text ++ " ms")
  else
    s <- truediv A ns (of_int A 1000000000) ;;
    text <- fixed A 2 s ;;
    Ok (text ++ " s").

(** One iteration of the speedup loop. *)
Definition add_speedup (git_baseline helix_cached : dict (num A))
    (speedups : list (num A)) (param : string) : result (list (num A)) :=
  if dict_mem param helix_cached then
    git_time <- getitem param git_baseline ;;
    helix_time <- getitem param helix_cached ;;
    if less A (of_int A 0) helix_time then
      ratio <- truediv A git_time helix_time ;;
      Ok (app speedups [ratio])
    else Ok speedups
  else Ok speedups.

Definition collect_speedups (git_baseline helix_cached : dict (num A))
  : result (list (num A)) :=
  for_each (add_speedup git_baseline helix_cached) (keys git_baseline) [].

(** [sum(l) / len(l)] *)
Definition average (l : list (num A)) : result (num A) :=
  s <- total A l ;;
  truediv A s (of_int A (Z.of_nat (List.length l))).

Definition build_summary_stats (results : ResultSet (num A)) : result string :=
  let git_baseline := get_or_empty "git_status_baseline" results in
  let helix_cached := get_or_empty "helix_index_cached_run" results in
  let query_staged := get_or_empty "query_staged" results in
  if negb (truthy git_baseline) || negb (truthy helix_cached) then Ok ""
  else
    let lines0 := ["## Summary Statistics" ++ nl] in
    speedups <- collect_speedups git_baseline helix_cached ;;
    lines1 <-
      (if truthy speedups then
         avg_speedup <- average speedups ;;
         figure <- fixed A 1 avg_speedup ;;
         Ok (app lines0 ["**Average speedup (cached):** "
                         ++ figure ++ "x faster than git"])
       else Ok lines0) ;;
    lines2 <-
      (if truthy query_staged then
         avg_query <- average (values query_staged) ;;
         text <- format_time avg_query ;;
         Ok (app lines1 ["**Average query time:** " ++ text])
       else Ok lines1) ;;
    let helix_open := get_or_empty "helix_index_open" results in
    lines3 <-
      (if truthy helix_open then
         avg_load <- average (values helix_open) ;;
         text <- format_time avg_load ;;
         Ok (app lines2 ["**Average index load time:** " ++ text])
       else Ok lines2) ;;
    Ok (join nl lines3).
End Over.
End AnyArithmetic.

(** ** Archive writer *)

(** What precedes the last separator, if there is one. *)
Fixpoint before_last (sep : ascii) (s : string) : option string :=
  match s with
  | EmptyString => None
  | String c s' =>
      match before_last sep s' with
      | Some pre => Some (String c pre)
      | None => if Ascii.eqb c sep then Some "" else None
      end
  end.

(** [Path.stem]: the name without its last suffix. *)
Definition stem (name : string) : string :=
  match before_last "." name with
  | Some pre => if String.eqb pre "" || endswith name "." then name else pre
  | None => name
  end.

(** A name matched by the pattern [f"{today_str}-*.md"]. *)
Definition glob_match (today_str name : string) : bool :=
  startswith name (today_str ++ "-")
  && endswith name ".md"
  && Nat.leb (String.length today_str + 4) (String.length name).

Definition next_counter (today_str : string) (names : list string) : result Z :=
  let existing := sorted_strings (filter (glob_match today_str) names) in
  if truthy existing then
    let last_file := last existing "" in
    last_counter <- py_int (last_field "-" (stem last_file)) ;;
    Ok (last_counter + 1)%Z
  else Ok 1%Z.

Definition archive_name (today_str : string) (counter : Z) : string :=
  today_str ++ "-" ++ format_03d counter ++ ".md".

Definition title_line : string := "# Helix Benchmark Results".

(** [archive_content] from the three sections. *)
Definition assemble (aligned_section comparison_section summary_section : string)
  : string :=
  let title := title_line ++ nl in
  let full_md0 := [title; aligned_section] in
  let full_md1 :=
    if negb (String.eqb comparison_section "")
    then app full_md0 [nl ++ comparison_section] else full_md0 in
  let full_md2 :=
    if negb (String.eqb summary_section "")
    then app full_md1 [nl ++ summary_section] else full_md1 in
  rstrip (join (nl ++ nl) full_md2) ++ nl.

Definition archive_content (results : ResultSet Q) : result string :=
  let aligned_section := "## All Operations" ++ nl ++ nl ++ build_aligned_table results in
  comparison_section <- build_comparison_table results ;;
  summary_section <- build_summary_stats results ;;
  Ok (assemble aligned_section comparison_section summary_section).

(** The archive directory maps a file name to the file's text; opening a
    name for writing replaces what it held. *)
Definition write_archive (results : ResultSet Q) (today_str : string)
    (archive_dir : dict string) : result (string * dict string) :=
  text <- archive_content results ;;
  counter <- next_counter today_str (keys archive_dir) ;;
  let archive_path := archive_name today_str counter in
  Ok (archive_path, dict_set archive_path text archive_dir).

(** ** Printing and [main] *)

(** [print(text)] on a standard output that already holds [stdout]. *)
Definition print (text stdout : string) : string := stdout ++ text ++ nl.

Definition print_aligned_table (results : ResultSet Q) (stdout : string) : string :=
  print (build_aligned_table results) stdout.

Definition print_comparison_table (results : ResultSet Q) (stdout : string)
  : result string :=
  s <- build_comparison_table results ;;
  Ok (if negb (String.eqb s "") then print s stdout else stdout).

Definition print_summary_stats (results : ResultSet Q) (stdout : string)
  : result string :=
  s <- build_summary_stats results ;;
  Ok (if negb (String.eqb s "") then print s stdout else stdout).

(** How a run ends: [sys.exit] or the end of [main], with what was printed
    and the archive directory as the run leaves it, or an exception nobody
    catches. *)
Inductive outcome : Type :=
| Exit (status : Z) (stdout stderr : string) (archive_dir : dict string)
| Uncaught (e : exn) (stdout : string) (archive_dir : dict string).

(** [main] from the point where the sections are built, for a result set of
    numbers; [archive_path] is the path of the archive directory as it is
    printed. *)
Definition report_and_archive (results : ResultSet Q)
    (today_str archive_path : string) (archive_dir : dict string) : outcome :=
  let title := title_line ++ nl in
  let aligned_section := "## All Operations" ++ nl ++ nl ++ build_aligned_table results in
  match build_comparison_table results with
  | Raise e => Uncaught e "" archive_dir
  | Ok comparison_section =>
      match build_summary_stats results with
      | Raise e => Uncaught e "" archive_dir
      | Ok summary_section =>
          let out1 := print aligned_section (print title "") in
          let out2 :=
            if negb (String.eqb comparison_section "")
            then print comparison_section (print "" out1) else out1 in
          let out3 :=
            if negb (String.eqb summary_section "")
            then print summary_section (print "" out2) else out2 in
          match next_counter today_str (keys archive_dir) with
          | Raise e => Uncaught e out3 archive_dir
          | Ok counter =>
              let name := archive_name today_str counter in
              let archive_content :=
                assemble aligned_section comparison_section summary_section in
              Exit 0
                (print (nl ++ "Wrote archive to " ++ archive_path ++ "/" ++ name) out3)
                ""
                (dict_set name archive_content archive_dir)
          end
      end
  end.

(** The number a builder reads in a collected value: [format_time], which
    [build_aligned_table] calls on every value before anything is printed,
    compares it with 1000 and raises [TypeError] unless it is a number (a
    JSON boolean is a Python [int]). *)
Definition as_number (v : json) : result Q :=
  match v with
  | JNum q => Ok q
  | JBool true => Ok 1%Q
  | JBool false => Ok 0%Q
  | _ => Raise TypeError
  end.

Fixpoint numeric_params (params : dict json) : result (dict Q) :=
  match params with
  | [] => Ok []
  | (p, v) :: rest =>
      q <- as_number v ;;
      rest' <- numeric_params rest ;;
      Ok ((p, q) :: rest')
  end.

Fixpoint numeric_results (results : ResultSet json) : result (ResultSet Q) :=
  match results with
  | [] => Ok []
  | (b, params) :: rest =>
      params' <- numeric_params params ;;
      rest' <- numeric_results rest ;;
      Ok ((b, params') :: rest')
  end.

(** [main]; [criterion_dir] is [None] when [target/criterion] does not
    exist and the listing of that directory otherwise. *)
Definition main (criterion_dir : option listing)
    (today_str archive_path : string) (archive_dir : dict string) : outcome :=
  match criterion_dir with
  | None =>
      Exit 1 ""
        ("Error: No criterion results found. Run 'cargo bench' first." ++ nl)
        archive_dir
  | Some entries =>
      match parse_criterion_results entries with
      | Raise e => Uncaught e "" archive_dir
      | Ok results =>
          if negb (truthy results)
          then Exit 1 "" ("Error: No benchmark results found." ++ nl) archive_dir
          else
            match numeric_results results with
            | Raise e => Uncaught e "" archive_dir
            | Ok numbers =>
                report_and_archive numbers today_str archive_path archive_dir
            end
      end
  end.

(** ** Sample inputs *)

(** A leaf directory holding [new/estimates.json] with the given content. *)
Definition leaf (c : content) : node :=
  Dir [("new", Dir [("estimates.json", File c)])].

Definition estimate (mean_ns : json) : content :=
  Document (JObj [("mean", JObj [("point_estimate", mean_ns)])]).

(** [{"mean": 1.5}]: valid JSON whose mean is a number, not a record. *)
Definition scalar_mean_tree : listing :=
  [("git_status_baseline", Dir [("10", leaf (Document (JObj [("mean", JNum 1.5)])))])].

(** A point estimate of -5. *)
Definition negative_mean_tree : listing :=
  [("git_status_baseline", Dir [("10", leaf (estimate (JNum (-5))))])].

Definition valid_mean_tree : listing :=
  [("query_staged", Dir [("100", leaf (estimate (JNum 1250)))])].

Definition baseline_and_cached : ResultSet Q :=
  [ ("git_status_baseline", [("10", 100%Q); ("100", 1000%Q)]);
    ("helix_index_cached_run", [("10", 50%Q); ("100", 200%Q)]) ].

(** A tree whose second benchmark has a directory where the estimates file
    of its second parameter should be. *)
Definition bad_leaf_tree : listing :=
  [ ("git_status_baseline", Dir [("10", leaf (estimate (JNum 100)))]);
    ("query_staged",
     Dir [("10", leaf (estimate (JNum 5)));
          ("100", Dir [("new", Dir [("estimates.json", Dir [])])])]);
    ("helix_index_open", Dir [("10", leaf Malformed)]) ].

(** A cached time of zero for one of two parameters. *)
Definition zero_cached : ResultSet Q :=
  [ ("git_status_baseline", [("10", 100%Q); ("100", 1000%Q)]);
    ("helix_index_cached_run", [("10", 0%Q); ("100", 250%Q)]) ].

(** A cached time below zero for the only parameter. *)
Definition negative_cached : ResultSet Q :=
  [ ("git_status_baseline", [("10", 100%Q)]);
    ("helix_index_cached_run", [("10", (-50)%Q)]) ].

(** The archives of a day on which the report was written a thousand times. *)
Definition thousand_archives : list string :=
  map (fun n => archive_name "2024-01-01" (Z.of_nat n)) (seq 1 1000).

(** ** Vocabulary of the properties *)

(** [results[b][p]], when both keys are there. *)
Definition lookup2 {V : Type} (results : ResultSet V) (b p : string) : option V :=
  match dict_get b results with
  | Some params => dict_get p params
  | None => None
  end.

Definition populated {V : Type} (results : ResultSet V) : Prop :=
  forall b params, dict_get b results = Some params -> params <> [].

(** A valid mean is a number that is not negative. *)
Definition valid_mean (v : json) : Prop :=
  match v with
  | JNum q => (0 <= q)%Q
  | _ => False
  end.

(** The tree holds, for benchmark [b] and parameter [p], an estimates record
    whose ["mean"]["point_estimate"] is [v]. *)
Definition point_estimate_at (criterion_dir : listing) (b p : string) (v : json)
  : Prop :=
  exists bench_dir param_dir data mean,
    In (b, Dir bench_dir) criterion_dir
    /\ In (p, Dir param_dir) bench_dir
    /\ estimates_file param_dir = Some (File (Document data))
    /\ subscript data "mean" = Ok mean
    /\ subscript mean "point_estimate" = Ok v.

Definition sourced (criterion_dir : listing) (results : ResultSet json) : Prop :=
  forall b p v, lookup2 results b p = Some v -> point_estimate_at criterion_dir b p v.

(** What [title] makes of one character, given whether a letter precedes. *)
Definition title_char (previous_is_cased : bool) (c : ascii) : ascii :=
  if is_lower c then (if previous_is_cased then c else to_upper c)
  else if is_upper c then (if previous_is_cased then to_lower c else c)
  else c.

Definition cased (c : ascii) : bool := is_lower c || is_upper c.

Definition no_underscore (s : string) : bool :=
  all_chars (fun c => negb (Ascii.eqb c "_")) s.

(** [s.isascii()]: every code point is below 128, so that every byte is a
    code point of its own. *)
Definition ascii_char (c : ascii) : bool := (code c <? 128)%N.

Definition isascii (s : string) : bool := all_chars ascii_char s.

(** U+01F0 followed by the letter a, as its UTF-8 bytes. *)
Definition j_caron_a : string := String "199" (String "176" "a").

(** The sections that go into the archive, each without a newline of its
    own before or after: the title line, the table section and the optional
    sections that are not empty. *)
Definition sections (aligned_section comparison_section summary_section : string)
  : list string :=
  title_line :: aligned_section
  :: app (if String.eqb comparison_section "" then [] else [comparison_section])
         (if String.eqb summary_section "" then [] else [summary_section]).

(** The content as the specification words it: one blank line between
    adjacent sections, trailing whitespace trimmed, one final newline. *)
Definition single_spaced (aligned_section comparison_section summary_section : string)
  : string :=
  rstrip (join (nl ++ nl) (sections aligned_section comparison_section summary_section))
  ++ nl.

Definition single_spaced_archive (results : ResultSet Q) : result string :=
  let aligned_section := "## All Operations" ++ nl ++ nl ++ build_aligned_table results in
  comparison_section <- build_comparison_table results ;;
  summary_section <- build_summary_stats results ;;
  Ok (single_spaced aligned_section comparison_section summary_section).

Fixpoint last_char (s : string) : option ascii :=
  match s with
  | EmptyString => None
  | String c s' =>
      match last_char s' with
      | Some d => Some d
      | None => Some c
      end
  end.

Definition value_of (d : dict Q) (p : string) : Q :=
  match dict_get p d with
  | Some v => v
  | None => 0%Q
  end.

(** The parameters of the baseline that the cached family has too, with a
    cached time other than zero. *)
Definition common_params (git_baseline helix_cached : dict Q) : list string :=
  filter (fun p => dict_mem p helix_cached
                   && negb (Qeq_bool (value_of helix_cached p) 0))
    (keys git_baseline).

Definition arithmetic_mean (l : list Q) : Q :=
  (Qsum l / inject_Z (Z.of_nat (List.length l)))%Q.

(** The lines of the summary after the speedup line. *)
Definition time_lines (results : ResultSet Q) : list string :=
  let query_staged := get_or_empty "query_staged" results in
  let helix_open := get_or_empty "helix_index_open" results in
  app (if truthy query_staged
       then ["**Average query time:** "
             ++ format_time (arithmetic_mean (values query_staged))]
       else [])
      (if truthy helix_open
       then ["**Average index load time:** "
             ++ format_time (arithmetic_mean (values helix_open))]
       else []).

(** The same vocabulary over any arithmetic: the value of a label, the
    labels of the baseline that the cached family has too with a cached time
    above zero, and the line of an average time. *)
Definition value_in (A : arithmetic) (d : dict (num A)) (p : string) : num A :=
  match dict_get p d with
  | Some v => v
  | None => of_int A 0
  end.

(** The cached family has the label, with a time above zero. *)
Definition above_zero_in (A : arithmetic) (helix_cached : dict (num A))
    (p : string) : bool :=
  dict_mem p helix_cached && less A (of_int A 0) (value_in A helix_cached p).

Definition positive_params (A : arithmetic)
    (git_baseline helix_cached : dict (num A)) : list string :=
  filter (above_zero_in A helix_cached) (keys git_baseline).

(** The baseline time of a label divided by its cached time. *)
Definition quotient_in (A : arithmetic) (git_baseline helix_cached : dict (num A))
    (p : string) : result (num A) :=
  truediv A (value_in A git_baseline p) (value_in A helix_cached p).

(** The results of [f] on the elements in order, up to the first that
    raises. *)
Fixpoint traverse {X Y : Type} (f : X -> result Y) (l : list X) : result (list Y) :=
  match l with
  | [] => Ok []
  | x :: l' => y <- f x ;; ys <- traverse f l' ;; Ok (y :: ys)
  end.

Definition time_line (A : arithmetic) (label : string) (family : dict (num A))
  : result (list string) :=
  if truthy family then
    s <- total A (values family) ;;
    avg <- truediv A s (of_int A (Z.of_nat (List.length family))) ;;
    text <- AnyArithmetic.format_time A avg ;;
    Ok [label ++ text]
  else Ok [].

(** A computation that does not end in a division by zero. *)
Definition no_zero_division {X : Type} (c : result X) : Prop :=
  c <> Raise ZeroDivisionError.

(** The counter read back from an archive name. *)
Definition counter_of (name : string) : result Z :=
  py_int (last_field "-" (stem name)).

Definition has_char (c : ascii) (s : string) : bool :=
  existsb (Ascii.eqb c) (list_ascii_of_string s).

(** What is checked of each counter from 0 to 1000: its three-digit form has
    no dash and reads back as the counter. *)
Definition counter_checked (k : Z) : bool :=
  negb (has_char "-" (format_03d k))
  && match py_int (format_03d k) with
     | Ok n => (n =? k)%Z
     | Raise _ => false
     end.

Definition counters : list Z := map Z.of_nat (seq 0 1001).

(** Two archive names are in text order as their counters are in numeric
    order. *)
Definition ordered_alike (a b : Z * string) : bool :=
  Bool.eqb (String.leb (snd a) (snd b)) (fst a <=? fst b)%Z.

Definition counter_names : list (Z * string) :=
  map (fun n => (Z.of_nat n, format_03d (Z.of_nat n) ++ ".md")) (seq 0 1000).

(** Every element is at most those that follow it. *)
Fixpoint ascending (l : list Z) : Prop :=
  match l with
  | [] => True
  | x :: l' => (forall y, In y l' -> (x <= y)%Z) /\ ascending l'
  end.

(** The lines of the table, before they are joined. *)
Definition aligned_lines (results : ResultSet Q) : list string :=
  let all_params := all_parameters results in
  let rows := map (table_row all_params results) (sorted_strings (keys results)) in
  let headers := "Benchmark" :: map (fun p => p ++ " files") all_params in
  let col_widths := column_widths headers rows in
  left_line headers col_widths
  :: separator_line col_widths
  :: map (fun row => value_line row col_widths) rows.

(** The width shared by the lines of a table with the given columns. *)
Definition line_width (col_widths : list nat) : nat :=
  (list_sum col_widths + 3 * List.length col_widths + 1)%nat.

(** Every cell is at most as wide as its column. *)
Definition fits (row : list string) (col_widths : list nat) : Prop :=
  Forall2 (fun cell w => (len cell <= w)%nat) row col_widths.

(** An estimates node the [try] block gets through or skips: a file whose
    text is not JSON, or a JSON object whose ["mean"], if there is one, is an
    object too. *)
Definition leaf_ok (estimates : node) : bool :=
  match estimates with
  | File Malformed => true
  | File (Document (JObj members)) =>
      match dict_get "mean" members with
      | None => true
      | Some (JObj _) => true
      | Some _ => false
      end
  | _ => false
  end.

(** Every estimates node of the tree is one the collector gets through. *)
Definition tame (criterion_dir : listing) : Prop :=
  forall b bench_dir p param_dir estimates,
    In (b, Dir bench_dir) criterion_dir ->
    In (p, Dir param_dir) bench_dir ->
    estimates_file param_dir = Some estimates ->
    leaf_ok estimates = true.

Definition recorded (results : ResultSet json) (b p : string) : Prop :=
  exists v, lookup2 results b p = Some v.

Definition sample_tree : listing :=
  [ ("git_status_baseline",
     Dir [("10", leaf (estimate (JNum 100))); ("100", leaf (estimate (JNum 1000)))]);
    ("helix_index_cached_run",
     Dir [("10", leaf (estimate (JNum 50))); ("100", leaf (estimate (JNum 200)))]);
    ("README.md", File Malformed) ].

Definition sample_comparison : string :=
  match build_comparison_table baseline_and_cached with
  | Ok s => s
  | Raise _ => ""
  end.

Definition sample_summary : string :=
  match build_summary_stats baseline_and_cached with
  | Ok s => s
  | Raise _ => ""
  end.

Definition whole_ns_checked (k : Z) : bool :=
  if (k <? 1000)%Z
  then String.eqb (format_time (inject_Z k)) (decimal_string k ++ " ns")
  else true.

Definition four_cells (rows : list (list string)) : Prop :=
  forall row, In row rows -> List.length row = 4%nat.

(** The rows the loop of the comparison builder collects. *)
Definition comparison_rows (results : ResultSet Q) : result (list (list string)) :=
  let git_baseline := get_or_empty "git_status_baseline" results in
  let helix_cached := get_or_empty "helix_index_cached_run" results in
  let helix_first := get_or_empty "helix_index_first_run" results in
  for_each (comparison_group git_baseline helix_first helix_cached)
    (sorted_params (keys git_baseline)) [].

Definition comparison_headers : list string := ["Operation"; "Time"; "vs Git"; ""].

(** The lines of the comparison table under its heading: the header, the
    separator and one line for each row that is not blank. *)
Definition comparison_lines (rows : list (list string)) : list string :=
  let col_widths := column_widths comparison_headers rows in
  left_line comparison_headers col_widths
  :: separator_line col_widths
  :: map (fun row => left_line row col_widths)
       (filter (fun row => negb (is_blank_row row)) rows).

Definition sample_rows : list (list string) :=
  match comparison_rows baseline_and_cached with
  | Ok rows => rows
  | Raise _ => []
  end.

(** Keys are not repeated, in the result set or under a benchmark. *)
Definition well_keyed (results : ResultSet json) : Prop :=
  NoDup (keys results)
  /\ forall b params, In (b, params) results -> NoDup (keys params).

(** * Properties *)

(** ** Result collector *)

(** C1. The collector does raise on a readable tree: a record that is valid
    JSON but whose ["mean"] is a number makes the second subscript raise
    [TypeError], which the [except] clause does not list. *)
Theorem parse_raises_on_scalar_mean :
  parse_criterion_results scalar_mean_tree = Raise TypeError.
Proof. reflexivity. Qed.

(** The same happens for a record that is a JSON array. *)
Example parse_raises_on_array_record :
  parse_criterion_results
    [("query_staged", Dir [("100", leaf (Document (JArr [])))])]
  = Raise TypeError.
Proof. reflexivity. Qed.

(** The cases the [except] clause does cover are skipped. *)
Example parse_skips_malformed_and_missing :
  parse_criterion_results
    [ ("a", Dir [("10", leaf Malformed)]);
      ("b", Dir [("10", leaf (Document (JObj [("median", JNull)])))]);
      ("c", Dir [("10", leaf (Document (JObj [("mean", JObj [])])))]);
      ("d", Dir [("10", Dir [])]);
      ("e", File Malformed);
      ("f", Dir [("10", leaf (estimate (JNum 7)))]) ]
  = Ok [("f", [("10", JNum 7)])].
Proof. reflexivity. Qed.

(** ** Speedup annotation *)

(** C3. With a baseline of zero and a positive candidate time the ratio is
    zero, the "slower" branch divides by it and the call raises. *)
Theorem calculate_speedup_zero_baseline :
  calculate_speedup 0 5 = Raise ZeroDivisionError.
Proof. reflexivity. Qed.

Example calculate_speedup_examples :
  calculate_speedup 2 1 = Ok "2.0x faster"
  /\ calculate_speedup 1 2 = Ok "2.0x slower"
  /\ calculate_speedup 3 3 = Ok "same"
  /\ calculate_speedup 3 0 = Ok "∞".
Proof. repeat split; reflexivity. Qed.

(** ** Missing families *)

(** C5. Without the baseline family or without the cached-run family both
    the comparison builder and the summary builder return the empty
    string. *)
Theorem builders_empty_without_families (results : ResultSet Q) :
  dict_get "git_status_baseline" results = None
  \/ dict_get "helix_index_cached_run" results = None ->
  build_comparison_table results = Ok ""
  /\ build_summary_stats results = Ok "".
Proof.
  unfold build_comparison_table, build_summary_stats, get_or_empty.
  intros [H | H]; rewrite H; simpl.
  - split; reflexivity.
  - rewrite orb_true_r. split; reflexivity.
Qed.

Lemma builders_empty_without_families_witness :
  build_comparison_table [("query_staged", [("10", 42%Q)])] = Ok ""
  /\ build_summary_stats [("query_staged", [("10", 42%Q)])] = Ok "".
Proof.
  apply builders_empty_without_families. left. reflexivity.
Defined.

(** ** Archive versioning *)

Example next_counter_examples :
  next_counter "2024-01-01" ["2024-01-01-001.md"; "2024-01-01-002.md"] = Ok 3%Z
  /\ archive_name "2024-01-01" 3 = "2024-01-01-003.md"
  /\ next_counter "2024-01-01" ["2023-12-31-004.md"] = Ok 1%Z
  /\ archive_name "2024-01-01" 1 = "2024-01-01-001.md".
Proof. repeat split; reflexivity. Qed.

Lemma In_by_eqb (x : string) (l : list string) :
  existsb (String.eqb x) l = true -> In x l.
Proof.
  intros H. apply existsb_exists in H. destruct H as [y [Hin Heq]].
  apply String.eqb_eq in Heq. subst y. exact Hin.
Qed.

(** C6. Once an archive numbered 1000 exists the writer no longer takes the
    maximum counter: names are sorted as text, ["...-999.md"] sorts last, the
    next counter is 1000 again and the archive of that number is replaced. *)
Theorem archive_1000_is_overwritten :
  next_counter "2024-01-01" thousand_archives = Ok 1000%Z
  /\ In (archive_name "2024-01-01" 1000) thousand_archives
  /\ exists text dir',
      write_archive baseline_and_cached "2024-01-01"
        [("2024-01-01-999.md", "run 999"); ("2024-01-01-1000.md", "run 1000")]
      = Ok ("2024-01-01-1000.md", dir')
      /\ dict_get "2024-01-01-1000.md" dir' = Some text
      /\ text <> "run 1000".
Proof.
  split; [vm_compute; reflexivity|].
  split; [apply In_by_eqb; vm_compute; reflexivity|].
  eexists. eexists. split; [vm_compute; reflexivity|].
  split; [reflexivity|discriminate].
Qed.

(** ** Table builder *)

(** C8 fails for the empty result set: the header and the separator are
    still produced. *)
Lemma build_aligned_table_empty_results :
  build_aligned_table [] = "| Benchmark |" ++ nl ++ "|-----------|"
  /\ build_aligned_table [] <> "".
Proof. split; [reflexivity|discriminate]. Qed.

(** ** Invariants of the result collector *)

Section DictFacts.
Context {V : Type}.

Lemma dict_get_set_same (k : string) (v : V) (d : dict V) :
  dict_get k (dict_set k v d) = Some v.
Proof.
  induction d as [|[k' v'] d IH]; simpl.
  - rewrite String.eqb_refl. reflexivity.
  - destruct (String.eqb k k') eqn:E; simpl; rewrite E; auto.
Qed.

Lemma dict_get_set_other (k k' : string) (v : V) (d : dict V) :
  k <> k' -> dict_get k' (dict_set k v d) = dict_get k' d.
Proof.
  intros Hne. induction d as [|[k0 v0] d IH]; simpl.
  - destruct (String.eqb k' k) eqn:E; [|reflexivity].
    apply String.eqb_eq in E. congruence.
  - destruct (String.eqb k k0) eqn:E; simpl.
    + apply String.eqb_eq in E. subst k0.
      destruct (String.eqb k' k) eqn:E'; [|reflexivity].
      apply String.eqb_eq in E'. congruence.
    + rewrite IH. reflexivity.
Qed.

Lemma dict_set_nonempty (k : string) (v : V) (d : dict V) :
  dict_set k v d <> [].
Proof.
  destruct d as [|[k' v'] d]; simpl; [discriminate|].
  destruct (String.eqb k k'); discriminate.
Qed.

Lemma dict_get_In (k : string) (v : V) (d : dict V) :
  dict_get k d = Some v -> In (k, v) d.
Proof.
  induction d as [|[k' v'] d IH]; simpl; [discriminate|].
  destruct (String.eqb k k') eqn:E.
  - apply String.eqb_eq in E. intros [= ->]. left. congruence.
  - auto.
Qed.

Lemma dict_get_keys (k : string) (d : dict V) :
  In k (keys d) -> exists v, dict_get k d = Some v.
Proof.
  induction d as [|[k' v'] d IH]; simpl; [tauto|].
  intros [<- | Hin].
  - rewrite String.eqb_refl. eauto.
  - destruct (String.eqb k k'); eauto.
Qed.
End DictFacts.

(** A loop keeps what every iteration keeps. *)
Lemma for_each_invariant {S A : Type} (P : S -> Prop)
    (body : S -> A -> result S) (l : list A) :
  (forall s a s', In a l -> P s -> body s a = Ok s' -> P s') ->
  forall s s', P s -> for_each body l s = Ok s' -> P s'.
Proof.
  induction l as [|a l IH]; simpl; intros Hbody s s' Hs Hrun.
  - injection Hrun as <-. exact Hs.
  - destruct (body s a) as [s1|e] eqn:E; simpl in Hrun; [|discriminate].
    apply (IH (fun s0 a0 s0' Hin => Hbody s0 a0 s0' (or_intror Hin)) s1 s');
      [|exact Hrun].
    apply (Hbody s a s1); auto.
Qed.

(** What a successful run of the [try] block has done. *)
Lemma record_estimate_ok (results results' : ResultSet json)
    (b p : string) (f : node) :
  record_estimate results b p f = Ok results' ->
  exists data mean v,
    f = File (Document data)
    /\ subscript data "mean" = Ok mean
    /\ subscript mean "point_estimate" = Ok v
    /\ exists params base,
        results' = dict_set b (dict_set p v params) base
        /\ (forall b', b <> b' -> dict_get b' base = dict_get b' results)
        /\ (params = [] \/ dict_get b results = Some params).
Proof.
  unfold record_estimate. intros H.
  destruct f as [c|?]; simpl in H; [|discriminate].
  destruct c as [| | | |data]; simpl in H; try discriminate.
  destruct (subscript data "mean") as [mean|?] eqn:Hm; simpl in H; [|discriminate].
  destruct (subscript mean "point_estimate") as [v|?] eqn:Hv; simpl in H;
    [|discriminate].
  exists data, mean, v.
  split; [reflexivity|]. split; [exact Hm|]. split; [exact Hv|].
  unfold dict_mem in H.
  destruct (dict_get b results) as [params|] eqn:Hb.
  - rewrite Hb in H. injection H as <-.
    exists params, results. auto.
  - rewrite dict_get_set_same in H. injection H as <-.
    exists [], (dict_set b [] results).
    split; [reflexivity|]. split; [|left; reflexivity].
    intros b' Hne. apply dict_get_set_other. exact Hne.
Qed.

(** An iteration of the inner loop either leaves the results alone or ran
    the [try] block to its end. *)
Lemma visit_param_ok (b : string) (results results' : ResultSet json)
    (entry : string * node) :
  visit_param b results entry = Ok results' ->
  results' = results
  \/ exists param_dir f,
       snd entry = Dir param_dir
       /\ estimates_file param_dir = Some f
       /\ record_estimate results b (fst entry) f = Ok results'.
Proof.
  unfold visit_param. intros H.
  destruct (snd entry) as [?|param_dir]; [injection H as <-; auto|].
  destruct (estimates_file param_dir) as [f|] eqn:Hf; [|injection H as <-; auto].
  destruct (record_estimate results b (fst entry) f) as [r|e] eqn:E.
  - injection H as <-. right. exists param_dir, f. auto.
  - destruct e; try discriminate; injection H as <-; auto.
Qed.

Lemma visit_param_populated (b : string) (results results' : ResultSet json)
    (entry : string * node) :
  populated results -> visit_param b results entry = Ok results' ->
  populated results'.
Proof.
  intros Hpop H. apply visit_param_ok in H.
  destruct H as [-> | (param_dir & f & _ & _ & Hrec)]; [exact Hpop|].
  apply record_estimate_ok in Hrec.
  destruct Hrec as (data & mean & v & _ & _ & _ & params & base & -> & Hbase & _).
  intros b' ps Hget.
  destruct (String.eqb b b') eqn:E.
  - apply String.eqb_eq in E. subst b'.
    rewrite dict_get_set_same in Hget. injection Hget as <-.
    apply dict_set_nonempty.
  - apply String.eqb_neq in E.
    rewrite dict_get_set_other in Hget by exact E.
    rewrite Hbase in Hget by exact E. eapply Hpop; eauto.
Qed.

Lemma parse_populated (criterion_dir : listing) (results : ResultSet json) :
  parse_criterion_results criterion_dir = Ok results -> populated results.
Proof.
  unfold parse_criterion_results.
  apply (for_each_invariant populated); [|intros b ps; discriminate].
  intros s [b n] s' _ Hs Hvisit. unfold visit_bench in Hvisit. simpl in Hvisit.
  destruct n as [?|bench_dir]; [injection Hvisit as <-; exact Hs|].
  revert Hvisit. apply for_each_invariant; [|exact Hs].
  intros r e r' _. apply visit_param_populated.
Qed.

(** C10. In a result set made by the collector every benchmark has at least
    one parameter, so [results.get(name, {})] is empty exactly when the
    benchmark is absent. *)
Theorem parsed_families_nonempty (criterion_dir : listing)
    (results : ResultSet json) :
  parse_criterion_results criterion_dir = Ok results ->
  (forall name params, dict_get name results = Some params -> params <> [])
  /\ (forall name,
        truthy (get_or_empty name results) = false
        <-> dict_get name results = None).
Proof.
  intros H. apply parse_populated in H. split; [exact H|].
  intros name. unfold get_or_empty.
  destruct (dict_get name results) as [params|] eqn:E.
  - specialize (H name params E). destruct params; [congruence|].
    simpl. split; discriminate.
  - simpl. tauto.
Qed.

Lemma parsed_families_nonempty_witness :
  (forall name params,
      dict_get name [("git_status_baseline", [("10", JNum (-5))])] = Some params ->
      params <> [])
  /\ (forall name,
        truthy (get_or_empty name [("git_status_baseline", [("10", JNum (-5))])])
        = false
        <-> dict_get name [("git_status_baseline", [("10", JNum (-5))])] = None).
Proof.
  apply (parsed_families_nonempty negative_mean_tree). reflexivity.
Defined.

(** C2 fails as stated: the collector stores whatever the record holds, and
    here that is a negative number. *)
Lemma negative_mean_is_recorded :
  exists results,
    parse_criterion_results negative_mean_tree = Ok results
    /\ lookup2 results "git_status_baseline" "10" = Some (JNum (-5))
    /\ ~ valid_mean (JNum (-5)).
Proof.
  exists [("git_status_baseline", [("10", JNum (-5))])].
  split; [reflexivity|]. split; [reflexivity|].
  simpl. intros H. apply Qle_bool_iff in H. discriminate H.
Qed.

(** Neither is a string turned away. *)
Example text_mean_is_recorded :
  parse_criterion_results
    [("query_staged", Dir [("10", leaf (estimate (JStr "fast")))])]
  = Ok [("query_staged", [("10", JStr "fast")])].
Proof. reflexivity. Qed.

Lemma visit_param_sourced (criterion_dir bench_dir : listing) (b : string)
    (results results' : ResultSet json) (entry : string * node) :
  In (b, Dir bench_dir) criterion_dir -> In entry bench_dir ->
  sourced criterion_dir results ->
  visit_param b results entry = Ok results' ->
  sourced criterion_dir results'.
Proof.
  intros Hb He Hs H. apply visit_param_ok in H.
  destruct H as [-> | (param_dir & f & Hdir & Hf & Hrec)]; [exact Hs|].
  apply record_estimate_ok in Hrec.
  destruct Hrec as (data & mean & v & -> & Hm & Hv & params & base & -> & Hbase & Hp).
  destruct entry as [p n]. simpl in Hdir, Hbase. subst n. simpl.
  intros b' p' v'. unfold lookup2.
  destruct (String.eqb b b') eqn:E.
  - apply String.eqb_eq in E. subst b'. rewrite dict_get_set_same.
    destruct (String.eqb p p') eqn:E'.
    + apply String.eqb_eq in E'. subst p'. rewrite dict_get_set_same.
      intros [= <-]. exists bench_dir, param_dir, data, mean. auto.
    + apply String.eqb_neq in E'. rewrite dict_get_set_other by exact E'.
      intros Hget. apply Hs. unfold lookup2.
      destruct Hp as [-> | ->]; [discriminate Hget|exact Hget].
  - apply String.eqb_neq in E. rewrite dict_get_set_other by exact E.
    rewrite Hbase by exact E. apply Hs.
Qed.

Lemma parse_sourced (criterion_dir : listing) (results : ResultSet json) :
  parse_criterion_results criterion_dir = Ok results ->
  sourced criterion_dir results.
Proof.
  unfold parse_criterion_results.
  apply (for_each_invariant (sourced criterion_dir));
    [|intros b p v; discriminate].
  intros s [b n] s' Hin Hs Hvisit. unfold visit_bench in Hvisit. simpl in Hvisit.
  destruct n as [?|bench_dir]; [injection Hvisit as <-; exact Hs|].
  revert Hvisit. apply for_each_invariant; [|exact Hs].
  intros r e r' He. apply (visit_param_sourced criterion_dir bench_dir); auto.
Qed.

(** C2, amended. Every recorded value is the ["mean"]["point_estimate"] of
    the estimates record of its benchmark and parameter, stored as it was
    read; the recorded means are valid whenever those of the tree are. *)
Theorem recorded_means_are_point_estimates (criterion_dir : listing)
    (results : ResultSet json) :
  parse_criterion_results criterion_dir = Ok results ->
  (forall b p v,
      lookup2 results b p = Some v -> point_estimate_at criterion_dir b p v)
  /\ ((forall b p v, point_estimate_at criterion_dir b p v -> valid_mean v) ->
      forall b p v, lookup2 results b p = Some v -> valid_mean v).
Proof.
  intros H. apply parse_sourced in H. split; [exact H|].
  intros Hvalid b p v Hget. apply (Hvalid b p). apply H. exact Hget.
Qed.

Lemma recorded_means_are_point_estimates_witness :
  (forall b p v,
      lookup2 [("query_staged", [("100", JNum 1250)])] b p = Some v ->
      point_estimate_at valid_mean_tree b p v)
  /\ ((forall b p v, point_estimate_at valid_mean_tree b p v -> valid_mean v) ->
      forall b p v,
        lookup2 [("query_staged", [("100", JNum 1250)])] b p = Some v ->
        valid_mean v).
Proof.
  apply (recorded_means_are_point_estimates valid_mean_tree). reflexivity.
Defined.

(** ** Name formatter *)

Ltac each_char c := destruct c as [[] [] [] [] [] [] [] []]; reflexivity.

Ltac each_ascii_char c H :=
  destruct c as [[] [] [] [] [] [] [] []];
  first [reflexivity | exact H | vm_compute in H; discriminate H].

Lemma ascii_char_single (c : ascii) :
  ascii_char c = true -> Ascii.eqb c "199" = false.
Proof. intros H. each_ascii_char c H. Qed.

Lemma title_char_ascii (b : bool) (c : ascii) :
  ascii_char c = true -> ascii_char (title_char b c) = true.
Proof. intros H. destruct b; each_ascii_char c H. Qed.

(** On a code point of the ASCII range [title] works one character at a
    time. *)
Lemma title_from_cons (b : bool) (c : ascii) (s : string) :
  ascii_char c = true ->
  title_from b (String c s) = String (title_char b c) (title_from (cased c) s).
Proof.
  intros Hc. unfold title_char, cased. cbn [title_from].
  destruct (is_lower c); [reflexivity|]. destruct (is_upper c); [reflexivity|].
  rewrite (ascii_char_single c Hc). destruct s; reflexivity.
Qed.

Lemma title_char_underscore (b : bool) (c : ascii) :
  Ascii.eqb (title_char b c) "_" = Ascii.eqb c "_".
Proof. destruct b; each_char c. Qed.

Lemma title_char_cased (b : bool) (c : ascii) :
  cased (title_char b c) = cased c.
Proof. destruct b; each_char c. Qed.

Lemma title_char_idempotent (b : bool) (c : ascii) :
  title_char b (title_char b c) = title_char b c.
Proof. destruct b; each_char c. Qed.

Lemma title_char_not_lower (c : ascii) :
  is_lower (title_char false c) = false.
Proof. each_char c. Qed.

Lemma isascii_cons (c : ascii) (s : string) :
  isascii (String c s) = true -> ascii_char c = true /\ isascii s = true.
Proof. intros H. apply andb_true_iff in H. exact H. Qed.

Lemma title_from_isascii (b : bool) (s : string) :
  isascii s = true -> isascii (title_from b s) = true.
Proof.
  revert b. induction s as [|c s IH]; intros b H; [reflexivity|].
  apply isascii_cons in H. destruct H as [Hc Hs].
  rewrite (title_from_cons b c s Hc). unfold isascii. cbn [all_chars].
  rewrite (title_char_ascii b c Hc). apply IH. exact Hs.
Qed.

Lemma title_from_idempotent (b : bool) (s : string) :
  isascii s = true -> title_from b (title_from b s) = title_from b s.
Proof.
  revert b. induction s as [|c s IH]; intros b H; [reflexivity|].
  apply isascii_cons in H. destruct H as [Hc Hs].
  rewrite (title_from_cons b c s Hc).
  rewrite (title_from_cons b _ _ (title_char_ascii b c Hc)).
  rewrite title_char_idempotent, title_char_cased, (IH _ Hs).
  reflexivity.
Qed.

Lemma replace_char_no_underscore (s : string) :
  no_underscore (replace_char "_" " " s) = true.
Proof.
  induction s as [|c s IH]; [reflexivity|].
  unfold no_underscore, replace_char in *. simpl. rewrite IH.
  destruct (Ascii.eqb c "_") eqn:E; [reflexivity|]. rewrite E. reflexivity.
Qed.

Lemma replace_char_isascii (s : string) :
  isascii s = true -> isascii (replace_char "_" " " s) = true.
Proof.
  induction s as [|c s IH]; intros H; [reflexivity|].
  apply isascii_cons in H. destruct H as [Hc Hs].
  unfold isascii, replace_char in *. cbn [map_chars all_chars].
  rewrite (IH Hs). destruct (Ascii.eqb c "_"); [reflexivity|].
  rewrite Hc. reflexivity.
Qed.

Lemma title_from_no_underscore (b : bool) (s : string) :
  isascii s = true ->
  no_underscore s = true -> no_underscore (title_from b s) = true.
Proof.
  revert b. unfold no_underscore.
  induction s as [|c s IH]; intros b Ha; [reflexivity|].
  apply isascii_cons in Ha. destruct Ha as [Hc Hs].
  rewrite (title_from_cons b c s Hc). simpl. rewrite title_char_underscore.
  intros H. apply andb_true_iff in H. destruct H as [-> H]. simpl. auto.
Qed.

Lemma replace_char_fixed (s : string) :
  no_underscore s = true -> replace_char "_" " " s = s.
Proof.
  unfold no_underscore, replace_char.
  induction s as [|c s IH]; [reflexivity|]. simpl.
  intros H. apply andb_true_iff in H. destruct H as [Hc H].
  rewrite (IH H). destruct (Ascii.eqb c "_"); [discriminate Hc|reflexivity].
Qed.

(** No substitution applies when no key starts the string. *)
Lemma apply_replacements_no_match (table : list (string * string)) (d : string) :
  (forall old new, In (old, new) table -> startswith d old = false) ->
  apply_replacements table d = d.
Proof.
  induction table as [|[old new] table IH]; intros H; [reflexivity|]. simpl.
  rewrite (H old new) by (left; reflexivity).
  apply IH. intros o n Hin. apply (H o n). right. exact Hin.
Qed.

Lemma prefix_first_differs (a b : ascii) (p t : string) :
  a <> b -> String.prefix (String a p) (String b t) = false.
Proof.
  intros Hne. simpl. destruct (ascii_dec a b); [contradiction|reflexivity].
Qed.

(** Every key of the table begins with a small letter, the title of an
    ASCII string does not. *)
Lemma title_starts_no_key (s old new : string) :
  isascii s = true ->
  In (old, new) replacements -> startswith (title s) old = false.
Proof.
  intros Ha Hin. unfold title, startswith. destruct s as [|c s].
  - simpl in Hin.
    repeat (destruct Hin as [Hin | Hin]; [injection Hin as <- _; reflexivity|]).
    destruct Hin.
  - apply isascii_cons in Ha. destruct Ha as [Hc _].
    rewrite (title_from_cons false c s Hc).
    pose proof (title_char_not_lower c) as Hl.
    simpl in Hin.
    repeat (destruct Hin as [Hin | Hin];
            [injection Hin as <- _; apply prefix_first_differs;
             intros E; rewrite <- E in Hl; discriminate Hl|]).
    destruct Hin.
Qed.

(** C9, as the specification words it, fails: the identifier made of
    U+01F0 and the letter a starts with no entry of the substitution table,
    yet formatting its display name again changes it.  The first pass
    raises U+01F0 to "J" followed by the combining caron U+030C and leaves
    the a small; in the second pass the a follows the caron, which is no
    letter, and is raised. *)
Lemma format_benchmark_name_not_idempotent :
  (forall old new,
      In (old, new) replacements ->
      startswith (replace_char "_" " " j_caron_a) old = false)
  /\ format_benchmark_name j_caron_a
     = String "J" (String "204" (String "140" "a"))
  /\ format_benchmark_name (format_benchmark_name j_caron_a)
     = String "J" (String "204" (String "140" "A"))
  /\ format_benchmark_name (format_benchmark_name j_caron_a)
     <> format_benchmark_name j_caron_a.
Proof.
  split; [|split; [reflexivity|split; [reflexivity|discriminate]]].
  intros old new [H | [H | [H | [H | []]]]]; injection H as <- _; reflexivity.
Qed.

(** C9, amended.  For an identifier of the ASCII range that no entry of the
    substitution table starts (once its underscores are spaces), formatting
    the formatted name again changes nothing. *)
Theorem format_benchmark_name_idempotent_ascii (name : string) :
  isascii name = true ->
  (forall old new,
      In (old, new) replacements ->
      startswith (replace_char "_" " " name) old = false) ->
  format_benchmark_name (format_benchmark_name name) = format_benchmark_name name.
Proof.
  intros Hascii Hnone. unfold format_benchmark_name.
  rewrite (apply_replacements_no_match _ _ Hnone).
  pose proof (replace_char_isascii name Hascii) as Hspaces.
  pose proof (title_from_isascii false _ Hspaces) as Htitle.
  rewrite replace_char_fixed
    by (apply title_from_no_underscore;
        [exact Hspaces | apply replace_char_no_underscore]).
  rewrite apply_replacements_no_match
    by (intros old new; apply title_starts_no_key; exact Hspaces).
  apply title_from_idempotent. exact Hspaces.
Qed.

Lemma format_benchmark_name_idempotent_ascii_witness :
  format_benchmark_name (format_benchmark_name "query_all_files")
  = format_benchmark_name "query_all_files".
Proof.
  apply format_benchmark_name_idempotent_ascii; [reflexivity|].
  intros old new [H | [H | [H | [H | []]]]]; injection H as <- _; reflexivity.
Defined.

(** ** The table is never empty *)

Lemma widen_length (col_widths : list nat) (row : list string) :
  List.length (widen col_widths row) = List.length col_widths.
Proof.
  revert row. induction col_widths as [|w ws IH]; intros [|cell cells]; simpl; auto.
Qed.

Lemma column_widths_length (headers : list string) (rows : list (list string)) :
  List.length (column_widths headers rows) = List.length headers.
Proof.
  unfold column_widths. rewrite <- (length_map len headers).
  generalize (map len headers). induction rows as [|row rows IH]; intros ws; simpl.
  - reflexivity.
  - rewrite IH. apply widen_length.
Qed.

Lemma join_cons (sep x : string) (l : list string) :
  join sep (x :: l)
  = x ++ match l with
         | [] => ""
         | _ :: _ => sep ++ join sep l
         end.
Proof.
  destruct l; simpl; [|reflexivity].
  induction x as [|c x IH]; simpl; congruence.
Qed.

(** C8, amended. The table builder never returns the empty string: its
    result always begins with the header row, and for the empty result set
    it is the header row and the separator row. *)
Theorem build_aligned_table_never_empty (results : ResultSet Q) :
  build_aligned_table results <> ""
  /\ (exists rest, build_aligned_table results = "| Benchmark" ++ rest)
  /\ build_aligned_table [] = "| Benchmark |" ++ nl ++ "|-----------|".
Proof.
  assert (H : exists rest, build_aligned_table results = "| Benchmark" ++ rest).
  { unfold build_aligned_table.
    set (all_params := all_parameters results).
    set (rows := map (table_row all_params results) (sorted_strings (keys results))).
    set (hs := map (fun p => p ++ " files") all_params).
    pose proof (column_widths_length ("Benchmark" :: hs) rows) as Hlen.
    destruct (column_widths ("Benchmark" :: hs) rows) as [|w ws];
      [discriminate Hlen|].
    rewrite join_cons. unfold left_line. simpl combine. simpl map.
    rewrite join_cons. unfold ljust. simpl. eexists. reflexivity. }
  split; [|split]; [|exact H|reflexivity].
  destruct H as [rest ->]. discriminate.
Qed.

(** ** Archive content *)

(** C7 fails as stated: in the archive two blank lines, not one, follow the
    title line and separate the sections. *)
Lemma archive_sections_two_blank_lines :
  archive_content baseline_and_cached <> single_spaced_archive baseline_and_cached
  /\ exists text rest,
      archive_content baseline_and_cached = Ok text
      /\ text = title_line ++ nl ++ nl ++ nl ++ "## All Operations" ++ rest.
Proof.
  split.
  - intros H. vm_compute in H. discriminate H.
  - eexists. eexists. split; vm_compute; reflexivity.
Qed.

Lemma rstrip_last_not_space (s : string) (c : ascii) :
  last_char (rstrip s) = Some c -> is_space c = false.
Proof.
  induction s as [|a s IH]; simpl; [discriminate|].
  destruct (rstrip s) as [|d r] eqn:E.
  - destruct (is_space a) eqn:Ha; simpl; [discriminate|].
    intros [= <-]. exact Ha.
  - intros H. apply IH. simpl in H |- *.
    destruct (last_char r); exact H.
Qed.

Lemma rstrip_keeps_first (a : ascii) (s : string) :
  is_space a = false -> exists c, last_char (rstrip (String a s)) = Some c.
Proof.
  intros Ha. simpl. destruct (rstrip s) as [|d r].
  - rewrite Ha. simpl. eauto.
  - simpl. destruct (last_char r); eauto.
Qed.

(** C7, amended. The archive text is the title line, the table section and
    the optional sections that are not empty, adjacent sections separated by
    exactly two blank lines; trailing whitespace is trimmed and the text ends
    with exactly one newline. *)
Theorem archive_text_layout (aligned_section comparison_section summary_section : string) :
  assemble aligned_section comparison_section summary_section
  = rstrip (join (nl ++ nl ++ nl)
              (sections aligned_section comparison_section summary_section))
    ++ nl
  /\ exists body c,
      assemble aligned_section comparison_section summary_section = body ++ nl
      /\ last_char body = Some c
      /\ is_space c = false.
Proof.
  assert (Hjoin :
    (let title := title_line ++ nl in
     let full_md0 := [title; aligned_section] in
     let full_md1 :=
       if negb (String.eqb comparison_section "")
       then app full_md0 [nl ++ comparison_section] else full_md0 in
     let full_md2 :=
       if negb (String.eqb summary_section "")
       then app full_md1 [nl ++ summary_section] else full_md1 in
     join (nl ++ nl) full_md2)
    = join (nl ++ nl ++ nl)
        (sections aligned_section comparison_section summary_section)).
  { unfold sections.
    destruct (String.eqb comparison_section "");
      destruct (String.eqb summary_section ""); simpl;
      repeat (f_equal; try reflexivity);
      induction aligned_section as [|a s IH]; simpl; congruence. }
  cbv zeta in Hjoin. unfold assemble. cbv zeta. rewrite Hjoin.
  split; [reflexivity|].
  destruct (rstrip_keeps_first "#"
              (drop 1 (join (nl ++ nl ++ nl)
                 (sections aligned_section comparison_section summary_section)))
              eq_refl) as [c Hc].
  assert (Hhead :
    String "#" (drop 1 (join (nl ++ nl ++ nl)
       (sections aligned_section comparison_section summary_section)))
    = join (nl ++ nl ++ nl)
        (sections aligned_section comparison_section summary_section)).
  { unfold sections. simpl. reflexivity. }
  rewrite Hhead in Hc.
  eexists. exists c. split; [reflexivity|]. split; [exact Hc|].
  eapply rstrip_last_not_space. exact Hc.
Qed.

(** ** Average speedup *)


Lemma truthy_true {A : Type} (l : list A) : l <> [] -> truthy l = true.
Proof. destruct l; [congruence|reflexivity]. Qed.


(** C4, as the specification words it, fails: a parameter present in both
    families with a cached time of -50, which is not zero, is left out of
    the average, and with no other parameter the summary reports no average
    at all. *)
Lemma negative_cached_time_is_excluded :
  let git_baseline := get_or_empty "git_status_baseline" negative_cached in
  let helix_cached := get_or_empty "helix_index_cached_run" negative_cached in
  common_params git_baseline helix_cached = ["10"]
  /\ collect_speedups git_baseline helix_cached = Ok []
  /\ build_summary_stats negative_cached = Ok ("## Summary Statistics" ++ nl).
Proof. split; [reflexivity|split; reflexivity]. Qed.

Section AnyArithmeticFacts.
Variable A : arithmetic.
Variables git_baseline helix_cached : dict (num A).

Lemma any_speedup_loop (params : list string) (speedups : list (num A)) :
  (forall p, In p params -> In p (keys git_baseline)) ->
  for_each (AnyArithmetic.add_speedup A git_baseline helix_cached) params speedups
  = (ratios <-
       traverse (quotient_in A git_baseline helix_cached)
         (filter (above_zero_in A helix_cached) params) ;;
     Ok (app speedups ratios)).
Proof.
  revert speedups. induction params as [|p params IH]; intros speedups Hin.
  - simpl. rewrite app_nil_r. reflexivity.
  - assert (Hp : In p (keys git_baseline)) by (apply Hin; left; reflexivity).
    apply dict_get_keys in Hp. destruct Hp as [g Hg].
    cbn [for_each filter].
    unfold AnyArithmetic.add_speedup at 1. unfold above_zero_in at 1.
    unfold getitem, dict_mem, value_in. rewrite Hg.
    destruct (dict_get p helix_cached) as [h|] eqn:Hh; cbn [bind andb].
    + destruct (less A (of_int A 0) h); cbn [bind traverse].
      * unfold quotient_in at 1. unfold value_in. rewrite Hg, Hh.
        destruct (truediv A g h) as [r|e]; cbn [bind]; [|reflexivity].
        rewrite IH by (intros q Hq; apply Hin; right; exact Hq).
        destruct (traverse (quotient_in A git_baseline helix_cached)
                    (filter (above_zero_in A helix_cached) params));
          cbn [bind]; [|reflexivity].
        rewrite <- app_assoc. reflexivity.
      * apply IH. intros q Hq. apply Hin. right. exact Hq.
    + apply IH. intros q Hq. apply Hin. right. exact Hq.
Qed.

Lemma any_collect_speedups :
  AnyArithmetic.collect_speedups A git_baseline helix_cached
  = traverse (quotient_in A git_baseline helix_cached)
      (positive_params A git_baseline helix_cached).
Proof.
  unfold AnyArithmetic.collect_speedups. rewrite any_speedup_loop by auto.
  unfold positive_params.
  destruct (traverse (quotient_in A git_baseline helix_cached)
              (filter (above_zero_in A helix_cached) (keys git_baseline)));
    reflexivity.
Qed.
End AnyArithmeticFacts.

Lemma any_summary_stats (A : arithmetic) (results : ResultSet (num A)) :
  let git_baseline := get_or_empty "git_status_baseline" results in
  let helix_cached := get_or_empty "helix_index_cached_run" results in
  git_baseline <> [] ->
  helix_cached <> [] ->
  AnyArithmetic.build_summary_stats A results
  = (ratios <- AnyArithmetic.collect_speedups A git_baseline helix_cached ;;
     speedup_line <-
       (if truthy ratios then
          s <- total A ratios ;;
          avg <- truediv A s (of_int A (Z.of_nat (List.length ratios))) ;;
          figure <- fixed A 1 avg ;;
          Ok ["**Average speedup (cached):** " ++ figure ++ "x faster than git"]
        else Ok []) ;;
     query_line <-
       time_line A "**Average query time:** "
         (get_or_empty "query_staged" results) ;;
     load_line <-
       time_line A "**Average index load time:** "
         (get_or_empty "helix_index_open" results) ;;
     Ok (join nl
           (("## Summary Statistics" ++ nl)
            :: app speedup_line (app query_line load_line)))).
Proof.
  intros git_baseline helix_cached Hgit Hhelix.
  unfold AnyArithmetic.build_summary_stats.
  fold git_baseline. fold helix_cached.
  rewrite (truthy_true _ Hgit), (truthy_true _ Hhelix).
  cbn [negb orb]. cbv zeta.
  unfold time_line, AnyArithmetic.average, values. rewrite !length_map.
  repeat match goal with
         | |- context [bind ?c _] =>
             lazymatch c with
             | context [bind] => fail
             | context [match _ with _ => _ end] => fail
             | Ok _ => fail
             | Raise _ => fail
             | _ => destruct c; cbn [bind]; try reflexivity
             end
         | |- context [if truthy ?l then _ else _] =>
             destruct (truthy l); cbn [bind]; try reflexivity
         end.
Qed.

(** The builder over the exact rationals is the builder of the sections
    above. *)
Lemma exact_format_time (ns : Q) :
  AnyArithmetic.format_time exact ns = Ok (format_time ns).
Proof.
  unfold AnyArithmetic.format_time, format_time.
  cbn [exact less of_int fixed truediv]. unfold inject_Z.
  destruct (Qlt_bool ns 1000); [reflexivity|].
  destruct (Qlt_bool ns 1000000); [reflexivity|].
  destruct (Qlt_bool ns 1000000000); reflexivity.
Qed.

Lemma exact_build_summary_stats (results : ResultSet Q) :
  AnyArithmetic.build_summary_stats exact results = build_summary_stats results.
Proof.
  unfold AnyArithmetic.build_summary_stats, build_summary_stats.
  change (num exact) with Q.
  destruct (negb (truthy (get_or_empty "git_status_baseline" results))
            || negb (truthy (get_or_empty "helix_index_cached_run" results)));
    [reflexivity|].
  cbv zeta.
  change (AnyArithmetic.collect_speedups exact) with collect_speedups.
  change (AnyArithmetic.average exact) with average.
  destruct (collect_speedups _ _) as [speedups|e]; [|reflexivity].
  cbn [bind].
  assert (Hline : forall (d : dict Q) (label : string) (lines : list string),
             (if truthy d
              then avg <- average (values d) ;;
                   text <- AnyArithmetic.format_time exact avg ;;
                   Ok (app lines [label ++ text])
              else Ok lines)
             = (if truthy d
                then avg <- average (values d) ;;
                     Ok (app lines [label ++ format_time avg])
                else Ok lines)).
  { intros d label lines. destruct (truthy d); [|reflexivity].
    destruct (average (values d)) as [avg|e]; [|reflexivity].
    cbn [bind]. rewrite exact_format_time. reflexivity. }
  destruct (truthy speedups).
  - destruct (average speedups) as [avg|e]; [|reflexivity].
    cbn [bind exact fixed]. rewrite Hline.
    destruct (if truthy (get_or_empty "query_staged" results) then _ else _);
      [|reflexivity].
    cbn [bind]. rewrite Hline. reflexivity.
  - cbn [bind]. rewrite Hline.
    destruct (if truthy (get_or_empty "query_staged" results) then _ else _);
      [|reflexivity].
    cbn [bind]. rewrite Hline. reflexivity.
Qed.

(** C4, amended.  Whatever the arithmetic does, the speedups the summary
    averages are the baseline/cached quotients of exactly the parameters of
    the baseline that the cached family has too with a cached time above
    zero, in the order of the baseline; the summary raises what the first
    failing operation raises, and otherwise its figure is the sum of these
    quotients divided by their number, to one decimal place, with no average
    line when no parameter is left; for the sample of two families the
    figure is 3.5x. *)
Theorem average_speedup_over_positive_cached_times
    (A : arithmetic) (results : ResultSet (num A)) :
  let git_baseline := get_or_empty "git_status_baseline" results in
  let helix_cached := get_or_empty "helix_index_cached_run" results in
  let quotients :=
    traverse (quotient_in A git_baseline helix_cached)
      (positive_params A git_baseline helix_cached) in
  git_baseline <> [] ->
  helix_cached <> [] ->
  AnyArithmetic.collect_speedups A git_baseline helix_cached = quotients
  /\ AnyArithmetic.build_summary_stats A results
     = (ratios <- quotients ;;
        speedup_line <-
          (if truthy ratios then
             s <- total A ratios ;;
             avg <- truediv A s (of_int A (Z.of_nat (List.length ratios))) ;;
             figure <- fixed A 1 avg ;;
             Ok ["**Average speedup (cached):** " ++ figure ++ "x faster than git"]
           else Ok []) ;;
        query_line <-
          time_line A "**Average query time:** "
            (get_or_empty "query_staged" results) ;;
        load_line <-
          time_line A "**Average index load time:** "
            (get_or_empty "helix_index_open" results) ;;
        Ok (join nl
              (("## Summary Statistics" ++ nl)
               :: app speedup_line (app query_line load_line))))
  /\ AnyArithmetic.build_summary_stats exact baseline_and_cached
     = build_summary_stats baseline_and_cached
  /\ build_summary_stats baseline_and_cached
     = Ok ("## Summary Statistics" ++ nl ++ nl
           ++ "**Average speedup (cached):** 3.5x faster than git").
Proof.
  intros git_baseline helix_cached quotients Hgit Hhelix.
  pose proof (any_collect_speedups A git_baseline helix_cached) as Hloop.
  split; [exact Hloop|]. split; [|split; reflexivity].
  rewrite (any_summary_stats A results Hgit Hhelix).
  fold git_baseline. fold helix_cached. rewrite Hloop. reflexivity.
Qed.

Lemma average_speedup_over_positive_cached_times_witness :
  AnyArithmetic.collect_speedups exact
    (get_or_empty "git_status_baseline" baseline_and_cached)
    (get_or_empty "helix_index_cached_run" baseline_and_cached)
  = Ok [(100 / 50)%Q; (1000 / 200)%Q]
  /\ AnyArithmetic.build_summary_stats exact baseline_and_cached
     = Ok ("## Summary Statistics" ++ nl ++ nl
           ++ "**Average speedup (cached):** 3.5x faster than git").
Proof.
  destruct (average_speedup_over_positive_cached_times exact baseline_and_cached)
    as [Hloop [Htext _]]; [discriminate|discriminate|].
  split; [exact Hloop|exact Htext].
Defined.

(** A cached time of zero is left out of the average, not divided by. *)
Example zero_cached_time_is_excluded :
  build_summary_stats
    [ ("git_status_baseline", [("10", 100%Q); ("100", 1000%Q)]);
      ("helix_index_cached_run", [("10", 0%Q); ("100", 250%Q)]) ]
  = Ok ("## Summary Statistics" ++ nl ++ nl
        ++ "**Average speedup (cached):** 4.0x faster than git").
Proof. reflexivity. Qed.

(** ** Speedup annotation for a positive baseline *)

Lemma calculate_speedup_positive (git_time helix_time : Q) :
  (0 < git_time)%Q -> (0 <= helix_time)%Q ->
  calculate_speedup git_time helix_time
  = Ok (if Qeq_bool helix_time 0 then "∞"
        else if Qlt_bool 1 (git_time / helix_time)
             then format_fixed 1 (git_time / helix_time) ++ "x faster"
        else if Qlt_bool (git_time / helix_time) 1
             then format_fixed 1 (1 / (git_time / helix_time)) ++ "x slower"
        else "same").
Proof.
  intros Hg Hh. unfold calculate_speedup, py_div.
  destruct (Qeq_bool helix_time 0) eqn:E; [reflexivity|]. simpl bind.
  destruct (Qlt_bool 1 (git_time / helix_time)); [reflexivity|].
  destruct (Qlt_bool (git_time / helix_time) 1); [|reflexivity].
  destruct (Qeq_bool (git_time / helix_time) 0) eqn:E'; [|reflexivity].
  exfalso. apply Qeq_bool_iff in E'.
  assert (Hne : ~ (helix_time == 0)%Q).
  { intros H0. apply Qeq_bool_iff in H0. congruence. }
  pose proof (Qmult_div_r git_time helix_time Hne) as Hmul.
  rewrite E', Qmult_0_r in Hmul. rewrite <- Hmul in Hg.
  exact (Qlt_irrefl 0 Hg).
Qed.

(** ** Side conditions of the model *)

(** [int(x)] succeeds on a label for which [x.isdigit()] holds, with the
    value used as the sort key. *)
Lemma digit_not_space (c : ascii) : is_digit c = true -> is_space c = false.
Proof. destruct c as [[] [] [] [] [] [] [] []]; vm_compute; congruence. Qed.

Lemma rstrip_digits (s : string) : all_chars is_digit s = true -> rstrip s = s.
Proof.
  induction s as [|c s IH]; [reflexivity|]. simpl.
  intros H. apply andb_true_iff in H. destruct H as [Hc Hs].
  rewrite (IH Hs). destruct s; [|reflexivity].
  rewrite (digit_not_space c Hc). reflexivity.
Qed.

Lemma grouped_digits_plain (s : string) (acc : Z) (after_digit : bool) :
  all_chars is_digit s = true ->
  s <> "" \/ after_digit = true ->
  grouped_digits acc after_digit s = Some (decimal_from acc s).
Proof.
  revert acc after_digit. induction s as [|c s IH]; intros acc b Hall Hne.
  - destruct Hne as [Hne | ->]; [congruence|reflexivity].
  - simpl in Hall |- *. apply andb_true_iff in Hall. destruct Hall as [Hc Hs].
    rewrite Hc. apply IH; auto.
Qed.

Lemma py_int_of_digits (s : string) :
  isdigit s = true -> py_int s = Ok (decimal_value s).
Proof.
  destruct s as [|c s]; [discriminate|]. unfold isdigit. intros Hall.
  assert (Hbody : grouped_digits 0 false (String c s)
                  = Some (decimal_from 0 (String c s))).
  { apply grouped_digits_plain; [exact Hall|left; discriminate]. }
  unfold py_int, strip. rewrite (rstrip_digits _ Hall).
  simpl in Hall. apply andb_true_iff in Hall. destruct Hall as [Hc _].
  unfold lstrip. rewrite (digit_not_space c Hc).
  unfold decimal_value.
  destruct c as [[] [] [] [] [] [] [] []]; try discriminate Hc;
    rewrite Hbody; reflexivity.
Qed.

(** Every row of the table has one cell per header, so the column widths
    are never indexed out of range. *)
Lemma table_row_length (all_params : list string) (results : ResultSet Q)
    (bench_name : string) :
  List.length (table_row all_params results bench_name)
  = List.length ("Benchmark" :: map (fun p => p ++ " files") all_params).
Proof. unfold table_row. simpl. rewrite !length_map. reflexivity. Qed.

(** ** Archive counters below 1000 *)

(** While every archive of the day has a three-digit counter, sorting the
    names as text sorts the counters as numbers, and the writer does take
    the maximum counter plus one and a name that is not in use. *)

Lemma string_app_assoc (a b c : string) : (a ++ b) ++ c = a ++ b ++ c.
Proof. induction a as [|x a IH]; simpl; congruence. Qed.

Lemma string_app_length (a b : string) :
  String.length (a ++ b) = (String.length a + String.length b)%nat.
Proof. induction a as [|x a IH]; simpl; congruence. Qed.

Lemma prefix_app (p r : string) : String.prefix p (p ++ r) = true.
Proof.
  induction p as [|x p IH]; simpl; [destruct r; reflexivity|].
  destruct (ascii_dec x x); [exact IH|contradiction].
Qed.

Lemma endswith_app (x p : string) : endswith (x ++ p) p = true.
Proof.
  induction x as [|c x IH].
  - destruct p as [|c p]; [reflexivity|].
    change (String.eqb (String c p) (String c p) || endswith p (String c p) = true).
    rewrite String.eqb_refl. reflexivity.
  - change (String.eqb (String c (x ++ p)) p || endswith (x ++ p) p = true).
    rewrite IH. apply orb_true_r.
Qed.

Lemma compare_app (p x y : string) :
  String.compare (p ++ x) (p ++ y) = String.compare x y.
Proof.
  induction p as [|c p IH]; simpl; [reflexivity|].
  unfold Ascii.compare. rewrite N.compare_refl. exact IH.
Qed.

Lemma leb_app (p x y : string) : String.leb (p ++ x) (p ++ y) = String.leb x y.
Proof. unfold String.leb. rewrite compare_app. reflexivity. Qed.

Lemma glob_match_archive_name (today_str : string) (k : Z) :
  glob_match today_str (archive_name today_str k) = true.
Proof.
  unfold glob_match, archive_name, startswith.
  rewrite <- (string_app_assoc today_str "-" (format_03d k ++ ".md")).
  rewrite prefix_app.
  rewrite <- (string_app_assoc (today_str ++ "-") (format_03d k) ".md").
  rewrite endswith_app. simpl andb.
  rewrite !string_app_length. simpl String.length.
  apply Nat.leb_le. lia.
Qed.

Lemma before_last_md (s : string) : before_last "." (s ++ ".md") = Some s.
Proof. induction s as [|c s IH]; simpl; [reflexivity|]. rewrite IH. reflexivity. Qed.

Lemma endswith_dot_md (s : string) : endswith (s ++ ".md") "." = false.
Proof.
  induction s as [|c s IH]; [reflexivity|].
  simpl. rewrite IH. rewrite orb_false_r.
  destruct (s ++ ".md") eqn:E; [destruct s; discriminate E|].
  destruct (Ascii.eqb c "."); reflexivity.
Qed.

Lemma stem_md (s : string) : s <> "" -> stem (s ++ ".md") = s.
Proof.
  intros Hs. unfold stem. rewrite before_last_md, endswith_dot_md.
  destruct s; [contradiction|reflexivity].
Qed.

Lemma has_char_app_r (c : ascii) (a b : string) :
  has_char c b = true -> has_char c (a ++ b) = true.
Proof.
  unfold has_char. induction a as [|x a IH]; simpl; [auto|].
  intros H. rewrite (IH H). apply orb_true_r.
Qed.

Lemma last_field_app (p d : string) :
  has_char "-" d = false -> last_field "-" (p ++ "-" ++ d) = d.
Proof.
  intros Hd. induction p as [|c p IH].
  - simpl. unfold has_char in Hd. rewrite Hd. reflexivity.
  - change ((if has_char "-" (p ++ "-" ++ d)
             then last_field "-" (p ++ "-" ++ d)
             else if Ascii.eqb c "-" then p ++ "-" ++ d
                  else String c (p ++ "-" ++ d)) = d).
    rewrite (has_char_app_r "-" p ("-" ++ d)) by reflexivity.
    exact IH.
Qed.

Lemma in_counters (k : Z) : (0 <= k <= 1000)%Z -> In k counters.
Proof.
  intros Hk. unfold counters. rewrite <- (Z2Nat.id k) by lia.
  apply in_map, in_seq. lia.
Qed.

Lemma counters_checked : forallb counter_checked counters = true.
Proof. vm_compute. reflexivity. Qed.

Lemma counter_of_archive_name (today_str : string) (k : Z) :
  (0 <= k <= 1000)%Z -> counter_of (archive_name today_str k) = Ok k.
Proof.
  intros Hk.
  pose proof (proj1 (forallb_forall _ _) counters_checked k (in_counters k Hk)) as H.
  unfold counter_checked in H. apply andb_true_iff in H. destruct H as [Hdash Hint].
  apply negb_true_iff in Hdash.
  unfold counter_of, archive_name.
  rewrite <- (string_app_assoc "-" (format_03d k) ".md").
  rewrite <- (string_app_assoc today_str ("-" ++ format_03d k) ".md").
  rewrite stem_md by (destruct today_str; discriminate).
  rewrite last_field_app by exact Hdash.
  destruct (py_int (format_03d k)) as [n|e]; [|discriminate Hint].
  apply Z.eqb_eq in Hint. congruence.
Qed.

Lemma counter_names_ordered :
  forallb (fun a => forallb (ordered_alike a) counter_names) counter_names = true.
Proof. vm_compute. reflexivity. Qed.

Lemma in_counter_names (k : Z) :
  (0 <= k < 1000)%Z -> In (k, format_03d k ++ ".md") counter_names.
Proof.
  intros Hk. unfold counter_names.
  apply in_map_iff. exists (Z.to_nat k). rewrite Z2Nat.id by lia.
  split; [reflexivity|]. apply in_seq. lia.
Qed.

Lemma archive_name_leb (today_str : string) (a b : Z) :
  (0 <= a < 1000)%Z -> (0 <= b < 1000)%Z ->
  String.leb (archive_name today_str a) (archive_name today_str b) = (a <=? b)%Z.
Proof.
  intros Ha Hb. unfold archive_name. rewrite !leb_app.
  pose proof (proj1 (forallb_forall _ _) counter_names_ordered _ (in_counter_names a Ha)) as H.
  pose proof (proj1 (forallb_forall _ _) H _ (in_counter_names b Hb)) as H'.
  unfold ordered_alike in H'. simpl in H'. apply Bool.eqb_prop in H'. exact H'.
Qed.

Section SortFacts.
Context {A : Type}.
Variable le : A -> A -> bool.

Lemma insert_by_In (x y : A) (l : list A) :
  In y (insert_by le x l) <-> y = x \/ In y l.
Proof.
  induction l as [|z l IH]; simpl.
  - intuition congruence.
  - destruct (le x z); simpl; rewrite ?IH; intuition congruence.
Qed.

Lemma sorted_by_In (y : A) (l : list A) : In y (sorted_by le l) <-> In y l.
Proof.
  induction l as [|x l IH]; simpl; [tauto|].
  rewrite insert_by_In, IH. intuition congruence.
Qed.

Lemma last_In (l : list A) (d : A) : l <> [] -> In (last l d) l.
Proof.
  induction l as [|x l IH]; [congruence|]. intros _.
  destruct l as [|y l]; [left; reflexivity|].
  right. apply IH. discriminate.
Qed.
End SortFacts.

Lemma insert_by_map {A B : Type} (f : A -> B) (le1 : A -> A -> bool)
    (le2 : B -> B -> bool) (x : A) (l : list A) :
  (forall y, In y l -> le2 (f x) (f y) = le1 x y) ->
  insert_by le2 (f x) (map f l) = map f (insert_by le1 x l).
Proof.
  induction l as [|y l IH]; intros H; simpl; [reflexivity|].
  rewrite (H y) by (left; reflexivity).
  destruct (le1 x y); simpl; [reflexivity|].
  rewrite IH by (intros z Hz; apply H; right; exact Hz). reflexivity.
Qed.

Lemma sorted_by_map {A B : Type} (f : A -> B) (le1 : A -> A -> bool)
    (le2 : B -> B -> bool) (l : list A) :
  (forall x y, In x l -> In y l -> le2 (f x) (f y) = le1 x y) ->
  sorted_by le2 (map f l) = map f (sorted_by le1 l).
Proof.
  induction l as [|x l IH]; intros H; simpl; [reflexivity|].
  rewrite IH by (intros a b Ha Hb; apply H; right; assumption).
  apply insert_by_map. intros y Hy. apply sorted_by_In in Hy.
  apply H; [left; reflexivity|right; exact Hy].
Qed.

Lemma insert_by_ascending (x : Z) (l : list Z) :
  ascending l -> ascending (insert_by Z.leb x l).
Proof.
  induction l as [|z l IH]; simpl; [tauto|].
  intros [Hz Hl]. destruct (x <=? z)%Z eqn:E; simpl.
  - apply Z.leb_le in E. repeat split; auto.
    intros y [<- | Hy]; [exact E|]. specialize (Hz y Hy). lia.
  - apply Z.leb_gt in E. split; [|auto].
    intros y Hy. apply insert_by_In in Hy. destruct Hy as [-> | Hy]; [lia|auto].
Qed.

Lemma sorted_by_ascending (l : list Z) : ascending (sorted_by Z.leb l).
Proof.
  induction l as [|x l IH]; simpl; [exact I|]. apply insert_by_ascending, IH.
Qed.

Lemma ascending_last (l : list Z) (d k : Z) :
  ascending l -> In k l -> (k <= last l d)%Z.
Proof.
  induction l as [|x l IH]; [contradiction|].
  intros [Hx Hl] Hk. destruct l as [|y l].
  - destruct Hk as [<- | []]. simpl. lia.
  - change (last (x :: y :: l) d) with (last (y :: l) d).
    destruct Hk as [<- | Hk]; [|apply IH; assumption].
    apply Hx. apply last_In. discriminate.
Qed.

Lemma last_map {A B : Type} (f : A -> B) (l : list A) (a : A) (b : B) :
  l <> [] -> last (map f l) b = f (last l a).
Proof.
  induction l as [|x l IH]; [congruence|]. intros _.
  destruct l as [|y l]; [reflexivity|].
  change (last (map f (y :: l)) b = f (last (y :: l) a)).
  apply IH. discriminate.
Qed.

(** When today's archives are those numbered [ks], all below 1000, the next
    counter is the greatest of them plus one and its name is not in use. *)
Lemma next_counter_three_digits (today_str : string) (names : list string)
    (ks : list Z) :
  filter (glob_match today_str) names = map (archive_name today_str) ks ->
  (forall k, In k ks -> (0 <= k < 1000)%Z) ->
  ks <> [] ->
  exists m,
    In m ks
    /\ (forall k, In k ks -> (k <= m)%Z)
    /\ next_counter today_str names = Ok (m + 1)%Z
    /\ ~ In (archive_name today_str (m + 1)) names.
Proof.
  intros Hglob Hrange Hne.
  set (sorted := sorted_by Z.leb ks).
  assert (Hs : sorted <> []).
  { destruct ks as [|k ks]; [congruence|].
    intros E. assert (Hin : In k sorted) by (apply sorted_by_In; left; reflexivity).
    rewrite E in Hin. exact Hin. }
  set (m := last sorted 0%Z).
  assert (Hm : In m ks) by (apply (sorted_by_In Z.leb), last_In, Hs).
  assert (Hmax : forall k, In k ks -> (k <= m)%Z).
  { intros k Hk. apply ascending_last; [apply sorted_by_ascending|].
    apply sorted_by_In. exact Hk. }
  exists m. split; [exact Hm|]. split; [exact Hmax|]. split.
  - unfold next_counter, sorted_strings. rewrite Hglob.
    rewrite (sorted_by_map (archive_name today_str) Z.leb String.leb)
      by (intros a b Ha Hb; apply archive_name_leb; auto).
    fold sorted. rewrite (truthy_true (map _ sorted)) by (destruct sorted; [congruence|discriminate]).
    rewrite (last_map _ sorted 0%Z "") by exact Hs. fold m.
    fold (counter_of (archive_name today_str m)).
    rewrite counter_of_archive_name by (specialize (Hrange m Hm); lia).
    reflexivity.
  - intros Hin.
    assert (Hf : In (archive_name today_str (m + 1))
                   (filter (glob_match today_str) names)).
    { apply filter_In. split; [exact Hin|apply glob_match_archive_name]. }
    rewrite Hglob in Hf. apply in_map_iff in Hf. destruct Hf as [k [Heq Hk]].
    assert (Hdec : counter_of (archive_name today_str k)
                   = counter_of (archive_name today_str (m + 1))) by congruence.
    pose proof (Hrange k Hk). pose proof (Hrange m Hm). pose proof (Hmax k Hk).
    rewrite !counter_of_archive_name in Hdec by lia.
    injection Hdec as Hdec. lia.
Qed.

(** * Further properties *)

(** ** Loops that return *)

(** A loop returns when each iteration does. *)
Lemma for_each_returns {S A : Type} (body : S -> A -> result S) (l : list A) :
  (forall s a, In a l -> exists s', body s a = Ok s') ->
  forall s, exists s', for_each body l s = Ok s'.
Proof.
  induction l as [|a l IH]; intros Hbody s; simpl; [eauto|].
  destruct (Hbody s a (or_introl eq_refl)) as [s1 ->]. simpl.
  apply IH. intros s0 a0 Hin. apply Hbody. right. exact Hin.
Qed.

(** A loop raises when it holds an element on which the body always
    raises. *)
Lemma for_each_raises {S A : Type} (body : S -> A -> result S) (l : list A)
    (a : A) :
  In a l -> (forall s, exists e, body s a = Raise e) ->
  forall s, exists e, for_each body l s = Raise e.
Proof.
  induction l as [|x l IH]; intros Hin Hbad s; [contradiction|]. simpl.
  destruct (body s x) as [s1|e] eqn:E; simpl; [|eauto].
  destruct Hin as [-> | Hin]; [|apply IH; assumption].
  destruct (Hbad s) as [e He]. congruence.
Qed.

(** What a loop raises, one of its iterations raises. *)
Lemma for_each_raised {S A : Type} (P : exn -> Prop)
    (body : S -> A -> result S) (l : list A) :
  (forall s a e, body s a = Raise e -> P e) ->
  forall s e, for_each body l s = Raise e -> P e.
Proof.
  intros Hbody. induction l as [|a l IH]; intros s e; simpl; [discriminate|].
  destruct (body s a) as [s1|e1] eqn:E; simpl.
  - apply IH.
  - intros [= <-]. apply (Hbody s a e1 E).
Qed.

(** ** Divisions of the builders *)

(** A zero baseline time does make the comparison builder raise. *)
Example build_comparison_table_zero_baseline :
  build_comparison_table
    [ ("git_status_baseline", [("10", 0%Q)]);
      ("helix_index_cached_run", [("10", 50%Q)]) ]
  = Raise ZeroDivisionError.
Proof. reflexivity. Qed.


Section NoZeroDivision.
Variable A : arithmetic.
Hypothesis positive_divisor :
  forall x y, less A (of_int A 0) y = true -> no_zero_division (truediv A x y).
Hypothesis positive_count :
  forall n, less A (of_int A 0) (of_int A (Z.pos n)) = true.
Hypothesis total_safe : forall l, no_zero_division (total A l).
Hypothesis fixed_safe : forall digits x, no_zero_division (fixed A digits x).

Lemma no_zero_division_bind {X Y : Type} (c : result X) (k : X -> result Y) :
  no_zero_division c ->
  (forall x, c = Ok x -> no_zero_division (k x)) ->
  no_zero_division (x <- c ;; k x).
Proof.
  unfold no_zero_division. intros Hc Hk.
  destruct c as [x|e]; simpl; [apply Hk; reflexivity|].
  intros [= ->]. apply Hc. reflexivity.
Qed.

Lemma no_zero_division_ok {X : Type} (x : X) : no_zero_division (Ok x).
Proof. discriminate. Qed.

Lemma no_zero_division_getitem (k : string) (d : dict (num A)) :
  no_zero_division (getitem k d).
Proof. unfold getitem. destruct (dict_get k d); discriminate. Qed.

Lemma no_zero_division_format_time (ns : num A) :
  no_zero_division (AnyArithmetic.format_time A ns).
Proof.
  unfold AnyArithmetic.format_time.
  repeat match goal with
         | |- no_zero_division (if ?b then _ else _) => destruct b
         end;
    repeat first
      [ apply no_zero_division_ok
      | apply fixed_safe
      | apply positive_divisor, positive_count
      | apply no_zero_division_bind; [|intros ? _] ].
Qed.

Lemma no_zero_division_add_speedup (git_baseline helix_cached : dict (num A))
    (speedups : list (num A)) (param : string) :
  no_zero_division
    (AnyArithmetic.add_speedup A git_baseline helix_cached speedups param).
Proof.
  unfold AnyArithmetic.add_speedup.
  destruct (dict_mem param helix_cached); [|apply no_zero_division_ok].
  apply no_zero_division_bind; [apply no_zero_division_getitem|intros g _].
  apply no_zero_division_bind; [apply no_zero_division_getitem|intros h _].
  destruct (less A (of_int A 0) h) eqn:Hpos; [|apply no_zero_division_ok].
  apply no_zero_division_bind; [apply positive_divisor, Hpos|intros r _].
  apply no_zero_division_ok.
Qed.

Lemma no_zero_division_average (l : list (num A)) :
  truthy l = true -> no_zero_division (AnyArithmetic.average A l).
Proof.
  intros Hl. unfold AnyArithmetic.average.
  apply no_zero_division_bind; [apply total_safe|intros s _].
  destruct l as [|x l]; [discriminate Hl|].
  apply positive_divisor. cbn [List.length Z.of_nat]. apply positive_count.
Qed.

Lemma no_zero_division_summary (results : ResultSet (num A)) :
  no_zero_division (AnyArithmetic.build_summary_stats A results).
Proof.
  unfold AnyArithmetic.build_summary_stats. cbv zeta.
  destruct (negb (truthy (get_or_empty "git_status_baseline" results))
            || negb (truthy (get_or_empty "helix_index_cached_run" results)));
    [apply no_zero_division_ok|].
  assert (Hvalues : forall d : dict (num A),
             truthy d = true -> truthy (values d) = true)
    by (intros [|[k v] d]; [discriminate|reflexivity]).
  apply no_zero_division_bind.
  { unfold AnyArithmetic.collect_speedups, no_zero_division. intros Hloop.
    refine (for_each_raised (fun e => e <> ZeroDivisionError)
              _ _ _ _ _ Hloop eq_refl).
    intros speedups param e He ->.
    exact (no_zero_division_add_speedup _ _ speedups param He). }
  intros speedups _.
  repeat first
    [ apply no_zero_division_ok
    | apply fixed_safe
    | apply no_zero_division_format_time
    | apply no_zero_division_average; solve [assumption | auto]
    | match goal with
      | |- no_zero_division (if truthy ?l then _ else _) =>
          destruct (truthy l) eqn:?
      end
    | apply no_zero_division_bind; [|intros ? _] ].
Qed.
End NoZeroDivision.

Lemma exact_positive_divisor (x y : Q) :
  Qlt_bool 0 y = true -> no_zero_division (py_div x y).
Proof.
  unfold py_div, no_zero_division, Qlt_bool. intros Hpos.
  destruct (Qeq_bool y 0) eqn:Hz; [|discriminate]. exfalso.
  apply Qeq_bool_iff in Hz. apply negb_true_iff in Hpos.
  assert (L : (y <= 0)%Q) by (rewrite Hz; apply Qle_refl).
  apply Qle_bool_iff in L. congruence.
Qed.

(** X3. No division of the summary builder is a division by zero: in any
    arithmetic in which a division by a number above zero does not raise
    [ZeroDivisionError], a positive integer is above zero, and neither a sum
    nor the formatting of a number raises it, the summary builder does not
    raise [ZeroDivisionError], whatever the result set holds. *)
Theorem build_summary_stats_no_zero_division
    (A : arithmetic) (results : ResultSet (num A)) :
  (forall x y, less A (of_int A 0) y = true -> no_zero_division (truediv A x y)) ->
  (forall n, less A (of_int A 0) (of_int A (Z.pos n)) = true) ->
  (forall l, no_zero_division (total A l)) ->
  (forall digits x, no_zero_division (fixed A digits x)) ->
  AnyArithmetic.build_summary_stats A results <> Raise ZeroDivisionError.
Proof.
  intros Hdiv Hcount Htotal Hfixed.
  exact (no_zero_division_summary A Hdiv Hcount Htotal Hfixed results).
Qed.

Lemma build_summary_stats_no_zero_division_witness :
  AnyArithmetic.build_summary_stats exact zero_cached <> Raise ZeroDivisionError.
Proof.
  apply build_summary_stats_no_zero_division.
  - exact exact_positive_divisor.
  - intros n. reflexivity.
  - intros l. discriminate.
  - intros digits x. discriminate.
Defined.

(** ** The substitution table of the name formatter *)

Lemma prefix_split (p s : string) :
  String.prefix p s = true -> s = p ++ drop (String.length p) s.
Proof.
  revert s. induction p as [|a p IH]; intros s H; [reflexivity|].
  destruct s as [|b s]; [discriminate H|]. simpl in H |- *.
  destruct (ascii_dec a b) as [->|]; [|discriminate H].
  f_equal. apply IH. exact H.
Qed.

Lemma replace_first_prefix (old new s : string) :
  String.prefix old s = true ->
  replace_first old new s = new ++ drop (String.length old) s.
Proof. intros H. destruct s; cbn [replace_first]; rewrite H; reflexivity. Qed.

(** Each entry of the table only raises letters that [title] raises too. *)
Lemma title_after_replacement (old new rest : string) :
  In (old, new) replacements -> title (new ++ rest) = title (old ++ rest).
Proof.
  intros Hin. simpl in Hin.
  repeat (destruct Hin as [Hin | Hin]; [injection Hin as <- <-; reflexivity|]).
  destruct Hin.
Qed.

Lemma title_apply_replacements (table : list (string * string)) (display : string) :
  (forall old new, In (old, new) table -> In (old, new) replacements) ->
  title (apply_replacements table display) = title display.
Proof.
  induction table as [|[old new] table IH]; intros Hsub; [reflexivity|]. simpl.
  unfold startswith. destruct (String.prefix old display) eqn:E.
  - rewrite (replace_first_prefix _ _ _ E).
    rewrite (prefix_split _ _ E) at 2.
    apply title_after_replacement, Hsub. left. reflexivity.
  - apply IH. intros o n Hin. apply Hsub. right. exact Hin.
Qed.

Lemma format_benchmark_name_title (name : string) :
  format_benchmark_name name = title (replace_char "_" " " name).
Proof.
  unfold format_benchmark_name. apply title_apply_replacements. auto.
Qed.

(** X4. The substitution table never changes the result: for every
    identifier the display name is the identifier with its underscores
    turned into spaces, title-cased. *)
Theorem format_benchmark_name_is_title_case (name : string) :
  format_benchmark_name name = title (replace_char "_" " " name).
Proof. apply format_benchmark_name_title. Qed.

(** X5. The name formatter is idempotent on every identifier of the ASCII
    range, with or without a recognised prefix, and its result holds no
    underscore. *)
Theorem format_benchmark_name_idempotent_always (name : string) :
  isascii name = true ->
  format_benchmark_name (format_benchmark_name name) = format_benchmark_name name
  /\ no_underscore (format_benchmark_name name) = true.
Proof.
  intros Hascii.
  pose proof (replace_char_isascii name Hascii) as Hspaces.
  assert (Hno : no_underscore (format_benchmark_name name) = true).
  { rewrite format_benchmark_name_title.
    apply title_from_no_underscore;
      [exact Hspaces | apply replace_char_no_underscore]. }
  split; [|exact Hno].
  rewrite (format_benchmark_name_title (format_benchmark_name name)).
  rewrite (replace_char_fixed _ Hno).
  rewrite format_benchmark_name_title. apply title_from_idempotent.
  exact Hspaces.
Qed.

Lemma format_benchmark_name_idempotent_always_witness :
  format_benchmark_name (format_benchmark_name "helix_index_cached_run")
  = format_benchmark_name "helix_index_cached_run"
  /\ no_underscore (format_benchmark_name "helix_index_cached_run") = true.
Proof.
  apply format_benchmark_name_idempotent_always. reflexivity.
Defined.

(** ** Shape of the table *)

Lemma len_app (a b : string) : len (a ++ b) = (len a + len b)%nat.
Proof.
  induction a as [|c a IH]; [reflexivity|]. simpl.
  destruct (is_continuation c); rewrite IH; reflexivity.
Qed.

Lemma len_repeat_char (c : ascii) (n : nat) :
  is_continuation c = false -> len (repeat_string (String c "") n) = n.
Proof. intros Hc. induction n as [|n IH]; simpl; [reflexivity|]. rewrite Hc, IH. reflexivity. Qed.

Lemma len_ljust (w : nat) (s : string) :
  (len s <= w)%nat -> len (ljust w s) = w.
Proof.
  intros H. unfold ljust. rewrite len_app, (len_repeat_char " ") by reflexivity. lia.
Qed.

Lemma len_rjust (w : nat) (s : string) :
  (len s <= w)%nat -> len (rjust w s) = w.
Proof.
  intros H. unfold rjust. rewrite len_app, (len_repeat_char " ") by reflexivity. lia.
Qed.

Lemma len_join (sep : string) (l : list string) :
  l <> [] ->
  len (join sep l)
  = (list_sum (map len l) + len sep * (List.length l - 1))%nat.
Proof.
  induction l as [|x l IH]; [congruence|]. intros _.
  rewrite join_cons. destruct l as [|y l].
  - rewrite len_app. simpl. lia.
  - rewrite !len_app, IH by discriminate.
    cbn [map List.length]. simpl list_sum.
    rewrite !Nat.sub_succ, !Nat.sub_0_r, Nat.mul_succ_r. lia.
Qed.

Lemma fits_length (row : list string) (ws : list nat) :
  fits row ws -> List.length row = List.length ws.
Proof. intros H. induction H; simpl; congruence. Qed.

Lemma padded_widths (pad : nat -> string -> string) (row : list string)
    (ws : list nat) :
  (forall w s, (len s <= w)%nat -> len (pad w s) = w) ->
  fits row ws ->
  map len (map (fun cw => pad (snd cw) (fst cw)) (combine row ws)) = ws.
Proof.
  intros Hpad H. induction H as [|cell w row ws Hc _ IH]; [reflexivity|].
  simpl. rewrite (Hpad _ _ Hc), IH. reflexivity.
Qed.

Lemma len_left_line (row : list string) (ws : list nat) :
  fits row ws -> ws <> [] -> len (left_line row ws) = line_width ws.
Proof.
  intros Hfit Hne. unfold left_line, line_width.
  rewrite !len_app, len_join.
  - rewrite (padded_widths ljust row ws len_ljust Hfit), length_map.
    rewrite length_combine, (fits_length _ _ Hfit), Nat.min_id.
    destruct ws; [congruence|]. simpl. lia.
  - destruct Hfit; [congruence|discriminate].
Qed.

Lemma len_value_line (row : list string) (ws : list nat) :
  fits row ws -> ws <> [] -> len (value_line row ws) = line_width ws.
Proof.
  intros Hfit Hne. unfold value_line, line_width.
  destruct Hfit as [|cell w row ws Hc Hrest]; [congruence|].
  cbn [combine]. rewrite !len_app, len_join by discriminate.
  cbn [map List.length].
  change (list_sum (?x :: ?l)) with (x + list_sum l)%nat.
  rewrite (len_ljust _ _ Hc), (padded_widths rjust row ws len_rjust Hrest).
  rewrite !length_map, length_combine, (fits_length _ _ Hrest), Nat.min_id.
  simpl. lia.
Qed.

Lemma len_separator_line (ws : list nat) :
  ws <> [] -> len (separator_line ws) = line_width ws.
Proof.
  intros Hne. unfold separator_line, line_width.
  rewrite !len_app, len_join by (destruct ws; [congruence|discriminate]).
  rewrite length_map.
  assert (Hsum : list_sum (map len (map (fun w => repeat_string "-" (w + 2)) ws))
                 = (list_sum ws + 2 * List.length ws)%nat).
  { clear Hne. induction ws as [|w ws IH]; [reflexivity|].
    cbn [map List.length].
    change (list_sum (?x :: ?l)) with (x + list_sum l)%nat.
    rewrite IH, (len_repeat_char "-") by reflexivity. lia. }
  rewrite Hsum. destruct ws; [congruence|]. simpl. lia.
Qed.

Lemma widen_grows (ws : list nat) (row : list string) :
  Forall2 le ws (widen ws row).
Proof.
  revert row. induction ws as [|w ws IH]; intros row; [destruct row; constructor|].
  destruct row as [|cell row]; simpl.
  - constructor; [lia|]. clear IH. induction ws; constructor; auto.
  - constructor; [lia|apply IH].
Qed.

Lemma widen_fits (ws : list nat) (row : list string) :
  List.length row = List.length ws -> fits row (widen ws row).
Proof.
  revert row. induction ws as [|w ws IH]; intros [|cell row] H;
    try discriminate H; simpl; constructor.
  - lia.
  - apply IH. simpl in H. congruence.
Qed.

Lemma fits_grows (row : list string) (ws ws' : list nat) :
  fits row ws -> Forall2 le ws ws' -> fits row ws'.
Proof.
  intros H. revert ws'. induction H as [|cell w row ws Hc _ IH]; intros ws' Hle.
  - inversion Hle; subst. constructor.
  - inversion Hle as [|? w' ? ws0 Hw Hrest]; subst.
    constructor; [lia|apply IH; exact Hrest].
Qed.

Lemma fold_widen_grows (rows : list (list string)) (ws : list nat) :
  Forall2 le ws (fold_left widen rows ws).
Proof.
  revert ws. induction rows as [|row rows IH]; intros ws; simpl.
  - induction ws; constructor; auto.
  - specialize (IH (widen ws row)). pose proof (widen_grows ws row) as H.
    revert IH. generalize (fold_left widen rows (widen ws row)). revert H.
    generalize (widen ws row). clear. intros ws1 H.
    induction H as [|a b l1 l2 Hab _ IH]; intros ws2 H2; inversion H2; subst;
      constructor; [lia|auto].
Qed.

Lemma fold_widen_fits (rows : list (list string)) (ws : list nat) (row : list string) :
  (forall r, In r rows -> List.length r = List.length ws) ->
  In row rows -> fits row (fold_left widen rows ws).
Proof.
  revert ws. induction rows as [|r rows IH]; intros ws Hlen Hin; [contradiction|].
  simpl. destruct Hin as [-> | Hin].
  - apply (fits_grows row (widen ws row)).
    + apply widen_fits, Hlen. left. reflexivity.
    + apply fold_widen_grows.
  - apply IH; [|exact Hin].
    intros r' Hr'. rewrite widen_length. apply Hlen. right. exact Hr'.
Qed.

Lemma headers_fit (headers : list string) (rows : list (list string)) :
  fits headers (column_widths headers rows).
Proof.
  unfold column_widths. apply (fits_grows headers (map len headers)).
  - induction headers; constructor; auto.
  - apply fold_widen_grows.
Qed.

(** X6. Every line of the table (header, separator and each benchmark row)
    has the same display width: the column widths plus three per column
    plus one. *)
Theorem aligned_table_lines_equal_width (results : ResultSet Q) :
  build_aligned_table results = join nl (aligned_lines results)
  /\ exists col_widths,
      List.length col_widths = S (List.length (all_parameters results))
      /\ forall line,
          In line (aligned_lines results) -> len line = line_width col_widths.
Proof.
  split; [reflexivity|].
  unfold aligned_lines.
  set (all_params := all_parameters results).
  set (rows := map (table_row all_params results) (sorted_strings (keys results))).
  set (headers := "Benchmark" :: map (fun p => p ++ " files") all_params).
  set (col_widths := column_widths headers rows).
  assert (Hlen : List.length col_widths = S (List.length all_params)).
  { unfold col_widths. rewrite column_widths_length. unfold headers. simpl.
    rewrite length_map. reflexivity. }
  assert (Hne : col_widths <> []) by (destruct col_widths; [discriminate Hlen|discriminate]).
  exists col_widths. split; [exact Hlen|].
  intros line [<- | [<- | Hin]].
  - apply len_left_line; [apply headers_fit|exact Hne].
  - apply len_separator_line, Hne.
  - apply in_map_iff in Hin. destruct Hin as [row [<- Hrow]].
    apply len_value_line; [|exact Hne].
    apply fold_widen_fits; [|exact Hrow].
    intros r Hr. unfold rows in Hr. apply in_map_iff in Hr.
    destruct Hr as [b [<- _]]. rewrite table_row_length, length_map.
    unfold headers. reflexivity.
Qed.




Lemma unique_In (x : string) (l : list string) : In x (unique l) <-> In x l.
Proof.
  induction l as [|y l IH]; simpl; [tauto|].
  rewrite filter_In, IH. split.
  - intros [H | [H _]]; auto.
  - intros [H | H]; [auto|].
    destruct (String.eqb y x) eqn:E.
    + apply String.eqb_eq in E. auto.
    + right. split; [exact H|reflexivity].
Qed.

Lemma unique_NoDup (l : list string) : NoDup (unique l).
Proof.
  induction l as [|x l IH]; simpl; constructor.
  - intros H. apply filter_In in H. destruct H as [_ H].
    rewrite String.eqb_refl in H. discriminate H.
  - apply NoDup_filter, IH.
Qed.

Lemma insert_by_NoDup {A : Type} (le : A -> A -> bool) (x : A) (l : list A) :
  ~ In x l -> NoDup l -> NoDup (insert_by le x l).
Proof.
  induction l as [|y l IH]; intros Hx Hl; simpl.
  - constructor; [tauto|constructor].
  - destruct (le x y); [constructor; assumption|].
    inversion Hl as [|? ? Hy Hl']; subst. constructor.
    + intros H. apply insert_by_In in H. destruct H as [-> | H]; [|contradiction].
      apply Hx. left. reflexivity.
    + apply IH; [|exact Hl']. intros H. apply Hx. right. exact H.
Qed.

Lemma sorted_by_NoDup {A : Type} (le : A -> A -> bool) (l : list A) :
  NoDup l -> NoDup (sorted_by le l).
Proof.
  induction l as [|x l IH]; intros H; simpl; [constructor|].
  inversion H as [|? ? Hx Hl]; subst.
  apply insert_by_NoDup; [|apply IH, Hl].
  intros Hin. apply sorted_by_In in Hin. contradiction.
Qed.

Lemma sorted_params_ascending (l : list string) :
  ascending (map param_key (sorted_params l)).
Proof.
  unfold sorted_params.
  rewrite <- (sorted_by_map param_key
                (fun a b => (param_key a <=? param_key b)%Z) Z.leb l)
    by reflexivity.
  apply sorted_by_ascending.
Qed.

(** X8. The parameter columns of the table are exactly the labels that
    occur under some benchmark, each once, in ascending order of their
    numeric key (a label that is not made of digits has key 0). *)
Theorem table_columns_sorted_and_distinct (results : ResultSet Q) :
  (forall p,
      In p (all_parameters results)
      <-> exists bench_name params ns,
           In (bench_name, params) results /\ In (p, ns) params)
  /\ NoDup (all_parameters results)
  /\ ascending (map param_key (all_parameters results)).
Proof.
  unfold all_parameters. split; [|split].
  - intros p. unfold sorted_params. rewrite sorted_by_In, unique_In, in_flat_map.
    split.
    + intros [[b params] [Hb Hp]]. simpl in Hp. unfold keys in Hp.
      apply in_map_iff in Hp. destruct Hp as [[p' ns] [Heq Hin]].
      simpl in Heq. subst p'. eauto.
    + intros (b & params & ns & Hb & Hp). exists (b, params).
      split; [exact Hb|]. simpl. unfold keys.
      apply in_map_iff. exists (p, ns). auto.
  - apply sorted_by_NoDup, unique_NoDup.
  - apply sorted_params_ascending.
Qed.

(** ** What the collector records and when it returns *)

Lemma record_estimate_result (results : ResultSet json) (b p : string)
    (data mean v : json) :
  subscript data "mean" = Ok mean ->
  subscript mean "point_estimate" = Ok v ->
  record_estimate results b p (File (Document data))
  = Ok (dict_set b (dict_set p v (get_or_empty b results))
          (if dict_mem b results then results else dict_set b [] results)).
Proof.
  intros Hm Hv. unfold record_estimate. simpl. rewrite Hm. simpl. rewrite Hv. simpl.
  unfold dict_mem, get_or_empty.
  destruct (dict_get b results) as [params|] eqn:E.
  - rewrite E. reflexivity.
  - rewrite dict_get_set_same. reflexivity.
Qed.

Lemma lookup2_recorded (results : ResultSet json) (b p b' p' : string) (v : json) :
  lookup2 (dict_set b (dict_set p v (get_or_empty b results))
             (if dict_mem b results then results else dict_set b [] results))
    b' p'
  = if String.eqb b b' && String.eqb p p' then Some v else lookup2 results b' p'.
Proof.
  unfold lookup2. destruct (String.eqb b b') eqn:Eb.
  - apply String.eqb_eq in Eb. subst b'. rewrite dict_get_set_same.
    destruct (String.eqb p p') eqn:Ep; simpl.
    + apply String.eqb_eq in Ep. subst p'. apply dict_get_set_same.
    + apply String.eqb_neq in Ep. rewrite dict_get_set_other by exact Ep.
      unfold get_or_empty. destruct (dict_get b results); reflexivity.
  - apply String.eqb_neq in Eb. simpl. rewrite dict_get_set_other by exact Eb.
    unfold dict_mem. destruct (dict_get b results) eqn:E; [reflexivity|].
    rewrite dict_get_set_other by exact Eb. reflexivity.
Qed.

(** The [try] block either raises or records its value where it belongs and
    leaves every other entry as it was. *)
Lemma record_estimate_lookup (results results' : ResultSet json)
    (b p : string) (f : node) :
  record_estimate results b p f = Ok results' ->
  exists v,
    forall b' p',
      lookup2 results' b' p'
      = if String.eqb b b' && String.eqb p p' then Some v else lookup2 results b' p'.
Proof.
  intros H. pose proof H as H0. apply record_estimate_ok in H0.
  destruct H0 as (data & mean & v & -> & Hm & Hv & _).
  rewrite (record_estimate_result _ _ _ _ _ _ Hm Hv) in H. injection H as <-.
  exists v. intros b' p'. apply lookup2_recorded.
Qed.

Lemma visit_param_keeps (b0 : string) (results results' : ResultSet json)
    (entry : string * node) (b p : string) :
  recorded results b p ->
  visit_param b0 results entry = Ok results' ->
  recorded results' b p.
Proof.
  intros [v Hv] H. apply visit_param_ok in H.
  destruct H as [-> | (param_dir & f & _ & _ & Hrec)]; [exists v; exact Hv|].
  apply record_estimate_lookup in Hrec. destruct Hrec as [v' Hlook].
  unfold recorded. rewrite Hlook.
  destruct (String.eqb b0 b && String.eqb (fst entry) p); eauto.
Qed.

Lemma visit_bench_keeps (results results' : ResultSet json)
    (entry : string * node) (b p : string) :
  recorded results b p ->
  visit_bench results entry = Ok results' ->
  recorded results' b p.
Proof.
  intros Hrec H. unfold visit_bench in H.
  destruct (snd entry) as [?|bench_dir]; [injection H as <-; exact Hrec|].
  revert H. apply (for_each_invariant (fun r => recorded r b p)); [|exact Hrec].
  intros s a s' _ Hs. apply visit_param_keeps. exact Hs.
Qed.

(** A loop that got through an element ends in a state that holds what the
    element's iteration established and the later ones keep. *)
Lemma for_each_reaches {S A : Type} (P : S -> Prop) (body : S -> A -> result S)
    (l : list A) (a : A) :
  In a l ->
  (forall s s', body s a = Ok s' -> P s') ->
  (forall s x s', In x l -> P s -> body s x = Ok s' -> P s') ->
  forall s s', for_each body l s = Ok s' -> P s'.
Proof.
  induction l as [|x l IH]; intros Hin Ha Hkeep s s' Hrun; [contradiction|].
  simpl in Hrun. destruct (body s x) as [s1|e] eqn:E; simpl in Hrun; [|discriminate].
  destruct Hin as [-> | Hin].
  - revert Hrun. apply (for_each_invariant P).
    + intros s0 y s0' Hy. apply Hkeep. right. exact Hy.
    + apply (Ha s). exact E.
  - apply (IH Hin Ha) with (s := s1); [|exact Hrun].
    intros s0 y s0' Hy. apply Hkeep. right. exact Hy.
Qed.

Lemma parse_records (criterion_dir : listing) (results : ResultSet json)
    (b p : string) (v : json) :
  parse_criterion_results criterion_dir = Ok results ->
  point_estimate_at criterion_dir b p v ->
  exists v', lookup2 results b p = Some v'.
Proof.
  intros Hparse (bench_dir & param_dir & data & mean & Hb & Hp & Hf & Hm & Hv).
  unfold parse_criterion_results in Hparse. revert Hparse.
  apply (for_each_reaches (fun r => recorded r b p) visit_bench criterion_dir
           (b, Dir bench_dir) Hb).
  - intros s s'. unfold visit_bench. simpl.
    apply (for_each_reaches (fun r => recorded r b p) (visit_param b) bench_dir
             (p, Dir param_dir) Hp).
    + intros r r' Hvisit. unfold visit_param in Hvisit. simpl in Hvisit.
      rewrite Hf, (record_estimate_result _ _ _ _ _ _ Hm Hv) in Hvisit.
      injection Hvisit as <-. exists v. rewrite lookup2_recorded.
      rewrite !String.eqb_refl. reflexivity.
    + intros r x r' _ Hr. apply visit_param_keeps. exact Hr.
  - intros s x s' _ Hs. apply visit_bench_keeps. exact Hs.
Qed.

(** X9. When the collector returns, no usable record is dropped: for every
    benchmark and parameter whose estimates record holds a
    ["mean"]["point_estimate"], the result set has an entry. *)
Theorem parse_records_every_point_estimate (criterion_dir : listing)
    (results : ResultSet json) (b p : string) (v : json) :
  parse_criterion_results criterion_dir = Ok results ->
  point_estimate_at criterion_dir b p v ->
  exists v', lookup2 results b p = Some v'.
Proof. apply parse_records. Qed.

Lemma parse_records_every_point_estimate_witness :
  exists v', lookup2 [("query_staged", [("100", JNum 1250)])] "query_staged" "100"
             = Some v'.
Proof.
  apply (parse_records_every_point_estimate valid_mean_tree _ _ _ (JNum 1250)).
  - reflexivity.
  - exists [("100", leaf (estimate (JNum 1250)))],
      [("new", Dir [("estimates.json", File (estimate (JNum 1250)))])],
      (JObj [("mean", JObj [("point_estimate", JNum 1250)])]),
      (JObj [("point_estimate", JNum 1250)]).
    repeat split; simpl; auto.
Defined.

Lemma visit_param_ok_leaf (b : string) (results : ResultSet json)
    (p : string) (param_dir : listing) (estimates : node) :
  estimates_file param_dir = Some estimates ->
  leaf_ok estimates = true ->
  exists results', visit_param b results (p, Dir param_dir) = Ok results'.
Proof.
  intros Hf Hok. unfold visit_param. simpl. rewrite Hf.
  destruct estimates as [c|?]; [|discriminate Hok].
  destruct c as [| | | |j]; try discriminate Hok; [simpl; eauto|].
  destruct j as [| | | | |members]; try discriminate Hok.
  unfold record_estimate. simpl in Hok |- *.
  destruct (dict_get "mean" members) as [mean|]; [|simpl; eauto].
  destruct mean as [| | | | |fields]; try discriminate Hok. simpl.
  destruct (dict_get "point_estimate" fields) as [v|]; [|simpl; eauto]. simpl.
  unfold dict_mem. destruct (dict_get b results) as [params|] eqn:E.
  - rewrite E. eauto.
  - rewrite dict_get_set_same. eauto.
Qed.

Lemma visit_param_bad_leaf (b : string) (results : ResultSet json)
    (p : string) (param_dir : listing) (estimates : node) :
  estimates_file param_dir = Some estimates ->
  leaf_ok estimates = false ->
  exists e, visit_param b results (p, Dir param_dir) = Raise e.
Proof.
  intros Hf Hbad. unfold visit_param. simpl. rewrite Hf.
  destruct estimates as [c|?]; [|simpl; eauto].
  destruct c as [| | | |j]; try discriminate Hbad; try (simpl; eauto; fail).
  unfold record_estimate. simpl in Hbad |- *.
  destruct j as [| | | | |members]; try (simpl; eauto; fail).
  simpl. destruct (dict_get "mean" members) as [mean|]; [|discriminate Hbad].
  destruct mean; try discriminate Hbad; simpl; eauto.
Qed.

Lemma parse_returns_when_tame (criterion_dir : listing) :
  tame criterion_dir ->
  exists results, parse_criterion_results criterion_dir = Ok results.
Proof.
  intros Htame. unfold parse_criterion_results. apply for_each_returns.
  intros s [b n] Hb. unfold visit_bench. simpl.
  destruct n as [?|bench_dir]; [eauto|].
  apply for_each_returns. intros r [p m] Hp.
  destruct m as [?|param_dir]; [unfold visit_param; simpl; eauto|].
  destruct (estimates_file param_dir) as [estimates|] eqn:Hf.
  - apply (visit_param_ok_leaf b r p param_dir estimates Hf).
    apply (Htame b bench_dir p param_dir estimates Hb Hp Hf).
  - unfold visit_param. simpl. rewrite Hf. eauto.
Qed.

(** The [except] clause lets neither of its two exceptions through. *)
Lemma visit_param_raised (b : string) (results : ResultSet json)
    (entry : string * node) (e : exn) :
  visit_param b results entry = Raise e -> e <> JSONDecodeError /\ e <> KeyError.
Proof.
  unfold visit_param. destruct (snd entry) as [?|param_dir]; [discriminate|].
  destruct (estimates_file param_dir) as [estimates|]; [|discriminate].
  destruct (record_estimate results b (fst entry) estimates) as [?|e'];
    [discriminate|].
  destruct e'; try discriminate; intros [= <-]; split; discriminate.
Qed.

Lemma parse_raised (criterion_dir : listing) (e : exn) :
  parse_criterion_results criterion_dir = Raise e ->
  e <> JSONDecodeError /\ e <> KeyError.
Proof.
  unfold parse_criterion_results.
  apply (for_each_raised (fun e => e <> JSONDecodeError /\ e <> KeyError)).
  intros s [b n] e'. unfold visit_bench. simpl.
  destruct n as [?|bench_dir]; [discriminate|].
  apply (for_each_raised (fun e => e <> JSONDecodeError /\ e <> KeyError)).
  intros r entry e''. apply visit_param_raised.
Qed.

Lemma parse_raises_on_bad_leaf (criterion_dir : listing)
    (b : string) (bench_dir : listing) (p : string) (param_dir : listing)
    (estimates : node) :
  In (b, Dir bench_dir) criterion_dir ->
  In (p, Dir param_dir) bench_dir ->
  estimates_file param_dir = Some estimates ->
  leaf_ok estimates = false ->
  exists e, parse_criterion_results criterion_dir = Raise e.
Proof.
  intros Hb Hp Hf Hbad. unfold parse_criterion_results.
  apply (for_each_raises visit_bench criterion_dir (b, Dir bench_dir) Hb).
  intros s. unfold visit_bench. simpl.
  apply (for_each_raises (visit_param b) bench_dir (p, Dir param_dir) Hp).
  intros r. apply (visit_param_bad_leaf b r p param_dir estimates Hf Hbad).
Qed.

(** X10. One estimates path that is a directory, or a file that is
    undecodable, or JSON that cannot be loaded, or a document that is not an
    object, or an object whose ["mean"] is not an object, makes the collector
    raise, wherever it is in the tree and whatever the other entries hold;
    the exception is neither of the two that the [except] clause names. *)
Theorem parse_raises_on_any_bad_leaf (criterion_dir : listing)
    (b : string) (bench_dir : listing) (p : string) (param_dir : listing)
    (estimates : node) :
  In (b, Dir bench_dir) criterion_dir ->
  In (p, Dir param_dir) bench_dir ->
  estimates_file param_dir = Some estimates ->
  leaf_ok estimates = false ->
  exists e,
    parse_criterion_results criterion_dir = Raise e
    /\ e <> JSONDecodeError /\ e <> KeyError.
Proof.
  intros Hb Hp Hf Hbad.
  destruct (parse_raises_on_bad_leaf criterion_dir b bench_dir p param_dir
              estimates Hb Hp Hf Hbad) as [e He].
  exists e. split; [exact He|]. apply (parse_raised criterion_dir e He).
Qed.

Lemma parse_raises_on_any_bad_leaf_witness :
  exists e,
    parse_criterion_results bad_leaf_tree = Raise e
    /\ e <> JSONDecodeError /\ e <> KeyError.
Proof.
  apply (parse_raises_on_any_bad_leaf bad_leaf_tree
           "query_staged" [("10", leaf (estimate (JNum 5)));
                           ("100", Dir [("new", Dir [("estimates.json", Dir [])])])]
           "100" [("new", Dir [("estimates.json", Dir [])])] (Dir [])).
  - right. left. reflexivity.
  - right. left. reflexivity.
  - reflexivity.
  - reflexivity.
Defined.

(** ** Archive names and counters *)

(** X11. Reading the counter back from an archive name gives the counter
    that was written into it, for every counter from 0 to 1000 and every
    date string. *)
Theorem archive_counter_round_trip (today_str : string) (k : Z) :
  (0 <= k <= 1000)%Z ->
  py_int (last_field "-" (stem (archive_name today_str k))) = Ok k.
Proof. intros Hk. apply (counter_of_archive_name today_str k Hk). Qed.

Lemma archive_counter_round_trip_witness :
  py_int (last_field "-" (stem (archive_name "2024-01-01" 42))) = Ok 42%Z.
Proof. apply archive_counter_round_trip. lia. Defined.

(** The next counter when today's archives are those numbered [ks]. *)
Lemma next_counter_fresh (today_str : string) (names : list string) (ks : list Z) :
  filter (glob_match today_str) names = map (archive_name today_str) ks ->
  (forall k, In k ks -> (0 <= k < 1000)%Z) ->
  exists c,
    next_counter today_str names = Ok c
    /\ (1 <= c <= 1000)%Z
    /\ (forall k, In k ks -> (k < c)%Z)
    /\ (ks = [] -> c = 1%Z)
    /\ (ks <> [] -> In (c - 1)%Z ks)
    /\ ~ In (archive_name today_str c) names.
Proof.
  intros Hglob Hrange. destruct ks as [|k0 ks].
  - exists 1%Z. unfold next_counter. rewrite Hglob. simpl.
    repeat split; try lia; try tauto.
    intros Hin.
    assert (Hf : In (archive_name today_str 1)
                   (filter (glob_match today_str) names)).
    { apply filter_In. split; [exact Hin|apply glob_match_archive_name]. }
    rewrite Hglob in Hf. exact Hf.
  - destruct (next_counter_three_digits today_str names (k0 :: ks) Hglob Hrange)
      as (m & Hm & Hmax & Hnext & Hfresh); [discriminate|].
    exists (m + 1)%Z. pose proof (Hrange m Hm).
    repeat split; try lia; auto.
    + intros k Hk. specialize (Hmax k Hk). lia.
    + discriminate.
    + intros _. replace (m + 1 - 1)%Z with m by lia. exact Hm.
Qed.

(** X12. When each of today's archives has a counter below 1000, the writer
    returns a counter greater than all of them (their maximum plus one, or 1
    when there is none) and the name it makes is not in the directory. *)
Theorem next_counter_is_fresh (today_str : string) (names : list string)
    (ks : list Z) :
  filter (glob_match today_str) names = map (archive_name today_str) ks ->
  (forall k, In k ks -> (0 <= k < 1000)%Z) ->
  exists c,
    next_counter today_str names = Ok c
    /\ (forall k, In k ks -> (k < c)%Z)
    /\ (ks = [] -> c = 1%Z)
    /\ (ks <> [] -> In (c - 1)%Z ks)
    /\ ~ In (archive_name today_str c) names.
Proof.
  intros Hglob Hrange.
  destruct (next_counter_fresh today_str names ks Hglob Hrange)
    as (c & Hc & _ & H1 & H2 & H3 & H4).
  exists c. auto.
Qed.

Lemma next_counter_is_fresh_witness :
  exists c,
    next_counter "2024-01-01"
      ["2024-01-01-002.md"; "notes.txt"; "2023-12-31-009.md"; "2024-01-01-001.md"]
    = Ok c
    /\ (forall k, In k [2%Z; 1%Z] -> (k < c)%Z)
    /\ ([2%Z; 1%Z] = [] -> c = 1%Z)
    /\ ([2%Z; 1%Z] <> [] -> In (c - 1)%Z [2%Z; 1%Z])
    /\ ~ In (archive_name "2024-01-01" c)
           ["2024-01-01-002.md"; "notes.txt"; "2023-12-31-009.md"; "2024-01-01-001.md"].
Proof.
  apply next_counter_is_fresh.
  - reflexivity.
  - intros k [<- | [<- | []]]; lia.
Defined.

(** ** What a run prints and writes *)

Lemma printed_report (aligned_section comparison_section summary_section : string) :
  (let out1 := print aligned_section (print (title_line ++ nl) "") in
   let out2 :=
     if negb (String.eqb comparison_section "")
     then print comparison_section (print "" out1) else out1 in
   if negb (String.eqb summary_section "")
   then print summary_section (print "" out2) else out2)
  = join (nl ++ nl) (sections aligned_section comparison_section summary_section)
    ++ nl.
Proof.
  cbv zeta. unfold sections, print.
  destruct (String.eqb comparison_section ""), (String.eqb summary_section "");
    simpl; repeat (rewrite !string_app_assoc; simpl); reflexivity.
Qed.

(** X13. What a run prints and leaves behind once the sections are built:
    the report on standard output has its sections separated by exactly one
    blank line; if the archive counter cannot be read the exception leaves
    the run after the report was printed and no file is written; otherwise
    the run ends with status 0, one more line naming the archive, and the
    archive text stored under the new name. *)
Theorem report_and_archive_spec (results : ResultSet Q)
    (today_str archive_path : string) (archive_dir : dict string)
    (comparison_section summary_section : string) :
  build_comparison_table results = Ok comparison_section ->
  build_summary_stats results = Ok summary_section ->
  let aligned_section := "## All Operations" ++ nl ++ nl ++ build_aligned_table results in
  let report :=
    join (nl ++ nl) (sections aligned_section comparison_section summary_section)
    ++ nl in
  report_and_archive results today_str archive_path archive_dir
  = match next_counter today_str (keys archive_dir) with
    | Raise e => Uncaught e report archive_dir
    | Ok counter =>
        Exit 0
          (report ++ nl ++ "Wrote archive to " ++ archive_path ++ "/"
           ++ archive_name today_str counter ++ nl)
          ""
          (dict_set (archive_name today_str counter)
             (assemble aligned_section comparison_section summary_section)
             archive_dir)
    end.
Proof.
  intros Hc Hs aligned_section report.
  unfold report_and_archive. rewrite Hc, Hs. cbv zeta.
  fold aligned_section.
  pose proof (printed_report aligned_section comparison_section summary_section)
    as Hprinted.
  cbv zeta in Hprinted. rewrite Hprinted. fold report.
  destruct (next_counter today_str (keys archive_dir)); [|reflexivity].
  f_equal. unfold print. repeat (rewrite !string_app_assoc; simpl). reflexivity.
Qed.

Lemma report_and_archive_spec_witness :
  let aligned_section :=
    "## All Operations" ++ nl ++ nl ++ build_aligned_table baseline_and_cached in
  let report :=
    join (nl ++ nl) (sections aligned_section sample_comparison sample_summary)
    ++ nl in
  report_and_archive baseline_and_cached "2024-01-01" "benches/archive"
    [("2024-01-01-001.md", "first run")]
  = match next_counter "2024-01-01" (keys [("2024-01-01-001.md", "first run")]) with
    | Raise e => Uncaught e report [("2024-01-01-001.md", "first run")]
    | Ok counter =>
        Exit 0
          (report ++ nl ++ "Wrote archive to " ++ "benches/archive" ++ "/"
           ++ archive_name "2024-01-01" counter ++ nl)
          ""
          (dict_set (archive_name "2024-01-01" counter)
             (assemble aligned_section sample_comparison sample_summary)
             [("2024-01-01-001.md", "first run")])
    end.
Proof. apply report_and_archive_spec; reflexivity. Defined.

(** How a run that reached the sections can end. *)
Lemma report_and_archive_ends (results : ResultSet Q)
    (today_str archive_path : string) (archive_dir : dict string) :
  (exists e out,
      report_and_archive results today_str archive_path archive_dir
      = Uncaught e out archive_dir)
  \/ (exists counter out text,
        next_counter today_str (keys archive_dir) = Ok counter
        /\ report_and_archive results today_str archive_path archive_dir
           = Exit 0 out ""
               (dict_set (archive_name today_str counter) text archive_dir)).
Proof.
  unfold report_and_archive.
  destruct (build_comparison_table results) as [c|e]; [|left; eauto].
  destruct (build_summary_stats results) as [s|e]; [|left; eauto].
  cbv zeta.
  destruct (next_counter today_str (keys archive_dir)) as [k|e]; [|left; eauto].
  right. exists k. eexists. eexists. split; reflexivity.
Qed.

Lemma main_ends (criterion_dir : option listing)
    (today_str archive_path : string) (archive_dir : dict string) :
  (exists e out,
      main criterion_dir today_str archive_path archive_dir
      = Uncaught e out archive_dir)
  \/ (exists err,
        err <> ""
        /\ main criterion_dir today_str archive_path archive_dir
           = Exit 1 "" err archive_dir)
  \/ (exists counter out text,
        next_counter today_str (keys archive_dir) = Ok counter
        /\ main criterion_dir today_str archive_path archive_dir
           = Exit 0 out ""
               (dict_set (archive_name today_str counter) text archive_dir)).
Proof.
  unfold main.
  destruct criterion_dir as [entries|];
    [|right; left; eexists; split; [|reflexivity]; discriminate].
  destruct (parse_criterion_results entries) as [results|e]; [|left; eauto].
  destruct (negb (truthy results));
    [right; left; eexists; split; [|reflexivity]; discriminate|].
  destruct (numeric_results results) as [numbers|e]; [|left; eauto].
  destruct (report_and_archive_ends numbers today_str archive_path archive_dir)
    as [H | H]; [left|right; right]; exact H.
Qed.

(** X14. [main] writes to the archive directory only in a run that ends
    with status 0, and then exactly one file, named by today's date and the
    next counter; a run that exits with status 1 has printed nothing on
    standard output and, like a run that ends in an exception, leaves the
    directory as it was. *)
Theorem main_writes_only_on_success (criterion_dir : option listing)
    (today_str archive_path : string) (archive_dir : dict string) :
  match main criterion_dir today_str archive_path archive_dir with
  | Uncaught _ _ archive_dir' => archive_dir' = archive_dir
  | Exit status out err archive_dir' =>
      (status = 1%Z /\ out = "" /\ err <> "" /\ archive_dir' = archive_dir)
      \/ (status = 0%Z /\ err = ""
          /\ exists counter text,
              next_counter today_str (keys archive_dir) = Ok counter
              /\ archive_dir'
                 = dict_set (archive_name today_str counter) text archive_dir)
  end.
Proof.
  destruct (main_ends criterion_dir today_str archive_path archive_dir)
    as [(e & out & ->) | [(err & Herr & ->) | (k & out & text & Hk & ->)]].
  - reflexivity.
  - left. auto.
  - right. split; [reflexivity|]. split; [reflexivity|]. eauto.
Qed.

Lemma dict_get_in_keys {V : Type} (k : string) (v : V) (d : dict V) :
  dict_get k d = Some v -> In k (keys d).
Proof.
  intros H. apply dict_get_In in H. unfold keys.
  apply in_map_iff. exists (k, v). auto.
Qed.

Lemma dict_set_fresh_length {V : Type} (k : string) (v : V) (d : dict V) :
  ~ In k (keys d) -> List.length (dict_set k v d) = S (List.length d).
Proof.
  induction d as [|[k' v'] d IH]; simpl; intros H; [reflexivity|].
  destruct (String.eqb k k') eqn:E.
  - apply String.eqb_eq in E. subst k'. exfalso. apply H. left. reflexivity.
  - simpl. rewrite IH; [reflexivity|]. intros Hin. apply H. right. exact Hin.
Qed.

(** X15. While today's archives all have counters below 1000, a run of
    [main] that ends with status 0 has replaced no file: every archive that
    was in the directory is still there with its text, and the directory
    holds exactly one file more. *)
Theorem main_keeps_existing_archives (criterion_dir : option listing)
    (today_str archive_path : string) (archive_dir archive_dir' : dict string)
    (ks : list Z) (out err : string) :
  filter (glob_match today_str) (keys archive_dir)
  = map (archive_name today_str) ks ->
  (forall k, In k ks -> (0 <= k < 1000)%Z) ->
  main criterion_dir today_str archive_path archive_dir
  = Exit 0 out err archive_dir' ->
  (forall name text,
      dict_get name archive_dir = Some text ->
      dict_get name archive_dir' = Some text)
  /\ List.length archive_dir' = S (List.length archive_dir).
Proof.
  intros Hglob Hrange Hrun.
  destruct (next_counter_fresh today_str (keys archive_dir) ks Hglob Hrange)
    as (c & Hc & _ & _ & _ & _ & Hfresh).
  destruct (main_ends criterion_dir today_str archive_path archive_dir)
    as [(e & o & H) | [(x & _ & H) | (k & o & text & Hk & H)]];
    rewrite H in Hrun; try discriminate Hrun.
  injection Hrun as _ _ <-.
  assert (k = c) by congruence. subst k. split.
  - intros name t Hget. rewrite dict_get_set_other; [exact Hget|].
    intros E. apply Hfresh. rewrite E. apply (dict_get_in_keys name t). exact Hget.
  - apply dict_set_fresh_length. exact Hfresh.
Qed.

Lemma main_keeps_existing_archives_witness :
  (forall name text,
      dict_get name [("2024-01-01-001.md", "first run")] = Some text ->
      dict_get name
        [("2024-01-01-001.md", "first run");
         ("2024-01-01-002.md",
          assemble
            ("## All Operations" ++ nl ++ nl ++ build_aligned_table baseline_and_cached)
            sample_comparison sample_summary)]
      = Some text)
  /\ List.length
       [("2024-01-01-001.md", "first run");
        ("2024-01-01-002.md",
         assemble
           ("## All Operations" ++ nl ++ nl ++ build_aligned_table baseline_and_cached)
           sample_comparison sample_summary)]
     = S (List.length [("2024-01-01-001.md", "first run")]).
Proof.
  eapply (main_keeps_existing_archives (Some sample_tree) "2024-01-01"
            "benches/archive" [("2024-01-01-001.md", "first run")] _ [1%Z]).
  - reflexivity.
  - intros k [<- | []]. lia.
  - vm_compute. reflexivity.
Defined.

(** X16. A criterion directory in which no estimates record can be used
    (and none makes the collector raise) ends the run with status 1 and the
    message that no benchmark results were found; nothing is printed on
    standard output and nothing is archived. *)
Theorem main_exits_without_results (criterion_dir : listing)
    (today_str archive_path : string) (archive_dir : dict string) :
  tame criterion_dir ->
  (forall b p v, ~ point_estimate_at criterion_dir b p v) ->
  main (Some criterion_dir) today_str archive_path archive_dir
  = Exit 1 "" ("Error: No benchmark results found." ++ nl) archive_dir.
Proof.
  intros Htame Hnone. unfold main.
  destruct (parse_returns_when_tame criterion_dir Htame) as [results Hparse].
  rewrite Hparse.
  destruct results as [|[b params] rest]; [reflexivity|]. exfalso.
  pose proof (parse_populated _ _ Hparse b params) as Hpop.
  simpl in Hpop. rewrite String.eqb_refl in Hpop. specialize (Hpop eq_refl).
  destruct params as [|[p v] params]; [congruence|].
  apply (Hnone b p v). apply (parse_sourced _ _ Hparse).
  unfold lookup2. cbn [dict_get]. rewrite String.eqb_refl.
  cbn [dict_get]. rewrite String.eqb_refl. reflexivity.
Qed.

Lemma main_exits_without_results_witness :
  main (Some [("git_status_baseline", Dir [("10", leaf Malformed)]);
              ("notes.txt", File Malformed)])
    "2024-01-01" "benches/archive" [("2024-01-01-001.md", "first run")]
  = Exit 1 "" ("Error: No benchmark results found." ++ nl)
      [("2024-01-01-001.md", "first run")].
Proof.
  apply main_exits_without_results.
  - intros b bench_dir p param_dir estimates Hb Hp Hf.
    destruct Hb as [Hb | [Hb | []]]; [|discriminate Hb].
    injection Hb as <- <-. destruct Hp as [Hp | []].
    injection Hp as <- <-. simpl in Hf. injection Hf as <-. reflexivity.
  - intros b p v (bench_dir & param_dir & data & mean & Hb & Hp & Hf & _).
    destruct Hb as [Hb | [Hb | []]]; [|discriminate Hb].
    injection Hb as <- <-. destruct Hp as [Hp | []].
    injection Hp as <- <-. simpl in Hf. discriminate Hf.
Defined.

(** ** Rounding in the time formatter *)

Lemma whole_ns_all_checked : forallb whole_ns_checked counters = true.
Proof. vm_compute. reflexivity. Qed.

(** X17. A whole number of nanoseconds below 1000 is shown as it is, with
    the unit [ns]. *)
Theorem format_time_whole_nanoseconds (n : Z) :
  (0 <= n < 1000)%Z -> format_time (inject_Z n) = decimal_string n ++ " ns".
Proof.
  intros Hn.
  assert (Hin : In n counters) by (apply in_counters; lia).
  pose proof (proj1 (forallb_forall _ _) whole_ns_all_checked n Hin) as H.
  unfold whole_ns_checked in H.
  destruct (n <? 1000)%Z eqn:E; [|apply Z.ltb_ge in E; lia].
  apply String.eqb_eq in H. exact H.
Qed.

Lemma format_time_whole_nanoseconds_witness :
  format_time (inject_Z 999) = decimal_string 999 ++ " ns".
Proof. apply format_time_whole_nanoseconds. lia. Defined.

(** X18. The unit is chosen before the value is rounded: every time from
    999.5 ns up to, but not including, 1000 ns is shown as ["1000 ns"], not
    in microseconds. *)
Theorem format_time_rounds_up_to_1000_ns (ns : Q) :
  (999.5 <= ns)%Q -> (ns < 1000)%Q -> format_time ns = "1000 ns".
Proof.
  destruct ns as [n d]. unfold Qle, Qlt. simpl Qnum. simpl Qden.
  intros Hlo Hhi.
  assert (H1 : Qlt_bool (n # d) 1000 = true).
  { unfold Qlt_bool, Qle_bool. simpl Qnum. simpl Qden.
    apply negb_true_iff. apply Z.leb_gt. lia. }
  assert (H0 : Qlt_bool (n # d) 0 = false).
  { unfold Qlt_bool, Qle_bool. simpl Qnum. simpl Qden.
    apply negb_false_iff. apply Z.leb_le. lia. }
  unfold format_time. rewrite H1. unfold format_fixed. rewrite H0.
  assert (Hm : round_half_even (Qabs (n # d) * inject_Z (10 ^ Z.of_nat 0)) = 1000%Z).
  { unfold round_half_even, Qabs, Qmult, inject_Z. simpl Qnum. simpl Qden.
    change (10 ^ Z.of_nat 0)%Z with 1%Z.
    rewrite Z.abs_eq by lia. rewrite Z.mul_1_r, Pos.mul_1_r.
    assert (Hq : (n / Z.pos d = 999)%Z).
    { symmetry. apply (Z.div_unique_pos n (Z.pos d) 999 (n - 999 * Z.pos d)); lia. }
    assert (Hr : (n mod Z.pos d = n - 999 * Z.pos d)%Z).
    { rewrite Z.mod_eq by lia. rewrite Hq. lia. }
    rewrite Hq, Hr.
    destruct (Z.compare_spec (2 * (n - 999 * Z.pos d)) (Z.pos d));
      [reflexivity|lia|reflexivity]. }
  rewrite Hm. reflexivity.
Qed.

Lemma format_time_rounds_up_to_1000_ns_witness :
  format_time 999.7 = "1000 ns".
Proof.
  apply format_time_rounds_up_to_1000_ns.
  - unfold Qle. simpl. lia.
  - unfold Qlt. simpl. lia.
Defined.

(** ** Shape of the comparison table *)

Lemma four_cells_app (rows : list (list string)) (a b c d : string) :
  four_cells rows -> four_cells (app rows [[a; b; c; d]]).
Proof.
  intros H row Hin. apply in_app_or in Hin.
  destruct Hin as [Hin | [<- | []]]; [apply H; exact Hin|reflexivity].
Qed.

Lemma comparison_group_four_cells (git_baseline helix_first helix_cached : dict Q)
    (rows rows' : list (list string)) (param : string) :
  four_cells rows ->
  comparison_group git_baseline helix_first helix_cached rows param = Ok rows' ->
  four_cells rows'.
Proof.
  intros Hrows. unfold comparison_group.
  repeat (match goal with
          | |- context [if ?b then _ else _] => destruct b
          | |- context [getitem ?k ?d] => destruct (getitem k d)
          | |- context [calculate_speedup ?a ?b] => destruct (calculate_speedup a b)
          end; simpl bind);
    try discriminate; intros [= <-]; repeat apply four_cells_app; exact Hrows.
Qed.

Lemma comparison_rows_four_cells (results : ResultSet Q)
    (rows : list (list string)) :
  comparison_rows results = Ok rows -> four_cells rows.
Proof.
  unfold comparison_rows.
  apply (for_each_invariant four_cells); [|intros r []].
  intros s a s' _. apply comparison_group_four_cells.
Qed.

Lemma comparison_lines_width (rows : list (list string)) (line : string) :
  four_cells rows ->
  In line (comparison_lines rows) ->
  len line = line_width (column_widths comparison_headers rows).
Proof.
  intros Hfour. unfold comparison_lines.
  set (col_widths := column_widths comparison_headers rows).
  assert (Hlen : List.length col_widths = 4%nat)
    by (unfold col_widths; rewrite column_widths_length; reflexivity).
  assert (Hne : col_widths <> [])
    by (destruct col_widths; [discriminate Hlen|discriminate]).
  intros [<- | [<- | Hin]].
  - apply len_left_line; [apply headers_fit|exact Hne].
  - apply len_separator_line, Hne.
  - apply in_map_iff in Hin. destruct Hin as [row [<- Hrow]].
    apply filter_In in Hrow. destruct Hrow as [Hrow _].
    apply len_left_line; [|exact Hne].
    apply fold_widen_fits; [|exact Hrow].
    intros r Hr. rewrite (Hfour r Hr). reflexivity.
Qed.

(** X19. When both families are present and the loop of the comparison
    builder collects its rows, the builder returns the heading followed by
    the header line, the separator line and one line for each row that is
    not blank; every collected row has four cells, there are four columns,
    and each of these lines has the same display width, that of the four
    columns. *)
Theorem comparison_table_lines_equal_width (results : ResultSet Q)
    (rows : list (list string)) :
  get_or_empty "git_status_baseline" results <> [] ->
  get_or_empty "helix_index_cached_run" results <> [] ->
  comparison_rows results = Ok rows ->
  build_comparison_table results
  = Ok (join nl (("## Performance Comparison" ++ nl) :: comparison_lines rows))
  /\ four_cells rows
  /\ List.length (column_widths comparison_headers rows) = 4%nat
  /\ forall line,
      In line (comparison_lines rows) ->
      len line = line_width (column_widths comparison_headers rows).
Proof.
  intros Hgit Hhelix Hrows.
  pose proof (comparison_rows_four_cells results rows Hrows) as Hfour.
  split; [|split; [exact Hfour|split]].
  - unfold build_comparison_table.
    rewrite (truthy_true _ Hgit), (truthy_true _ Hhelix). cbn [negb orb].
    cbv zeta. unfold comparison_rows in Hrows. cbv zeta in Hrows.
    rewrite Hrows. reflexivity.
  - rewrite column_widths_length. reflexivity.
  - intros line. apply comparison_lines_width. exact Hfour.
Qed.

Lemma comparison_table_lines_equal_width_witness :
  build_comparison_table baseline_and_cached
  = Ok (join nl (("## Performance Comparison" ++ nl) :: comparison_lines sample_rows))
  /\ four_cells sample_rows
  /\ List.length (column_widths comparison_headers sample_rows) = 4%nat
  /\ forall line,
      In line (comparison_lines sample_rows) ->
      len line = line_width (column_widths comparison_headers sample_rows).
Proof.
  apply (comparison_table_lines_equal_width baseline_and_cached sample_rows).
  - discriminate.
  - discriminate.
  - reflexivity.
Defined.

(** ** Keys of the result set *)

Lemma dict_set_keys {V : Type} (k : string) (v : V) (d : dict V) :
  keys (dict_set k v d) = if dict_mem k d then keys d else app (keys d) [k].
Proof.
  unfold dict_mem. induction d as [|[k' v'] d IH]; simpl; [reflexivity|].
  destruct (String.eqb k k') eqn:E; simpl; [reflexivity|].
  rewrite IH. destruct (dict_get k d); reflexivity.
Qed.

Lemma dict_mem_false_keys {V : Type} (k : string) (d : dict V) :
  dict_mem k d = false -> ~ In k (keys d).
Proof.
  unfold dict_mem. intros H Hin. apply dict_get_keys in Hin.
  destruct Hin as [v Hv]. rewrite Hv in H. discriminate H.
Qed.

Lemma dict_set_NoDup {V : Type} (k : string) (v : V) (d : dict V) :
  NoDup (keys d) -> NoDup (keys (dict_set k v d)).
Proof.
  intros H. rewrite dict_set_keys. destruct (dict_mem k d) eqn:E; [exact H|].
  apply NoDup_app; [exact H|constructor; [tauto|constructor]|].
  intros x Hx [<- | []]. apply (dict_mem_false_keys _ _ E). exact Hx.
Qed.

Lemma dict_set_In {V : Type} (k k' : string) (v v' : V) (d : dict V) :
  In (k', v') (dict_set k v d) -> (k' = k /\ v' = v) \/ In (k', v') d.
Proof.
  induction d as [|[k0 v0] d IH]; simpl.
  - intros [[= <- <-] | []]. auto.
  - destruct (String.eqb k k0) eqn:E; simpl.
    + apply String.eqb_eq in E. subst k0.
      intros [[= <- <-] | H]; auto.
    + intros [H | H]; [auto|]. destruct (IH H); auto.
Qed.

Lemma visit_param_well_keyed (b : string) (results results' : ResultSet json)
    (entry : string * node) :
  well_keyed results -> visit_param b results entry = Ok results' ->
  well_keyed results'.
Proof.
  intros [Hk Hp] H. apply visit_param_ok in H.
  destruct H as [-> | (param_dir & f & _ & _ & Hrec)]; [split; assumption|].
  pose proof Hrec as H0. apply record_estimate_ok in H0.
  destruct H0 as (data & mean & v & -> & Hm & Hv & _).
  rewrite (record_estimate_result _ _ _ _ _ _ Hm Hv) in Hrec. injection Hrec as <-.
  assert (Hbase : well_keyed (if dict_mem b results then results
                              else dict_set b [] results)).
  { destruct (dict_mem b results); [split; assumption|]. split.
    - apply dict_set_NoDup, Hk.
    - intros b' ps Hin. apply dict_set_In in Hin.
      destruct Hin as [[_ ->] | Hin]; [constructor|eauto]. }
  destruct Hbase as [Hk' Hp']. split.
  - apply dict_set_NoDup, Hk'.
  - intros b' ps Hin. apply dict_set_In in Hin.
    destruct Hin as [[_ ->] | Hin]; [|eauto].
    apply dict_set_NoDup. unfold get_or_empty.
    destruct (dict_get b results) as [params|] eqn:E; [|constructor].
    apply (Hp b). apply dict_get_In. exact E.
Qed.

Lemma parse_well_keyed (criterion_dir : listing) (results : ResultSet json) :
  parse_criterion_results criterion_dir = Ok results -> well_keyed results.
Proof.
  unfold parse_criterion_results.
  apply (for_each_invariant well_keyed);
    [|split; [constructor|intros b ps []]].
  intros s [b n] s' _ Hs Hvisit. unfold visit_bench in Hvisit. simpl in Hvisit.
  destruct n as [?|bench_dir]; [injection Hvisit as <-; exact Hs|].
  revert Hvisit. apply for_each_invariant; [|exact Hs].
  intros r e r' _. apply visit_param_well_keyed.
Qed.

(** ** The printing wrappers *)

(** X21. Without the baseline family or without the cached-run family,
    [print_comparison_table] and [print_summary_stats] return without
    writing anything to standard output, not even an empty line. *)
Theorem printers_silent_without_families (results : ResultSet Q) (stdout : string) :
  dict_get "git_status_baseline" results = None
  \/ dict_get "helix_index_cached_run" results = None ->
  print_comparison_table results stdout = Ok stdout
  /\ print_summary_stats results stdout = Ok stdout.
Proof.
  unfold print_comparison_table, print_summary_stats,
    build_comparison_table, build_summary_stats, get_or_empty.
  intros [H | H]; rewrite H; simpl.
  - split; reflexivity.
  - rewrite orb_true_r. split; reflexivity.
Qed.

Lemma printers_silent_without_families_witness :
  print_comparison_table [("query_staged", [("10", 42%Q)])] "earlier output"
  = Ok "earlier output"
  /\ print_summary_stats [("query_staged", [("10", 42%Q)])] "earlier output"
     = Ok "earlier output".
Proof.
  apply printers_silent_without_families. left. reflexivity.
Defined.

(** ** When a section is empty *)





